(** * preparar_dados (av1.py): the cleaning and enrichment of the ENEM batch

    A shallow embedding of [preparar_dados] (src/av1.py, lines 74-198) and of
    the income-index lambda of [analisar_renda_notas] (line 374), with the
    pandas and Python operations they call.

    - A cell of a table is a missing value, a number or a string.
    - A [DataFrame] is an object on a heap: [df.copy()], [df[mask]] and
      [df.dropna(...)] allocate a new object, [df[col] = ...] updates the
      object in place.
    - Exceptions are results: every operation returns [Ok v] or [Raise e]
      together with the heap it leaves behind. *)

From Stdlib Require Import ZArith QArith String Ascii List Lia DecimalString DecimalPos.
From stdpp Require Import base option list gmap strings.
Import ListNotations.

Local Open Scope string_scope.
Local Open Scope list_scope.
Local Open Scope Z_scope.

(** ** Cells *)

(** A number of a table: an integer, a finite float, written as the
    rational it stands for, or an infinity ([negativo] for [-inf]).
    Booleans are outside the model. *)
Inductive number : Type :=
| Int (z : Z)
| Float (q : Q)
| Inf (negativo : bool).

(** [NaN] is the missing value ([float('nan')], what [read_csv] puts in an
    empty field). *)
Inductive cell : Type :=
| NaN
| Num (n : number)
| Str (s : string).

Abbreviation Series := (list cell).

(** Python's [==] on numbers: [1 == 1.0]. *)
Definition number_eqb (a b : number) : bool :=
  match a, b with
  | Int x, Int y => Z.eqb x y
  | Int x, Float q => Qeq_bool (inject_Z x) q
  | Float q, Int x => Qeq_bool q (inject_Z x)
  | Float p, Float q => Qeq_bool p q
  | Inf s, Inf t => Bool.eqb s t
  | _, _ => false
  end.

(** [a == b] on cells, as the elementwise comparison of a Series with a
    scalar computes it: a missing value equals nothing, a string never equals
    a number. *)
Definition py_eq (a b : cell) : bool :=
  match a, b with
  | Num x, Num y => number_eqb x y
  | Str s, Str t => String.eqb s t
  | _, _ => false
  end.

(** [pd.notna] *)
Definition notna (c : cell) : bool :=
  match c with
  | NaN => false
  | _ => true
  end.

(** ** What the model takes from the libraries

    Three things of Python and pandas are parameters of the development:
    - [float_str q] is [str(q)] for a float (the shortest decimal that reads
      back as the same float);
    - [str_to_number s] is the number [pd.to_numeric] reads in the string
      [s], or [None] when [s] is not a number for it;
    - [null_str] is what [Series.astype('str')] makes of a missing value:
      the string ['nan'] in pandas 1 and 2 ([Some "nan"]); in pandas 3 the
      value stays missing ([None]). *)
Record Lib : Type := {
  float_str : Q -> string;
  str_to_number : string -> option number;
  null_str : option string
}.

(** ** Exceptions and results *)

Inductive exn : Type :=
| KeyError (keys : list string)
| ValueError (msg : string)
| TypeError (msg : string).

Inductive result (A : Type) : Type :=
| Ok (a : A)
| Raise (e : exn).
Arguments Ok {A} a.
Arguments Raise {A} e.

#[global] Instance result_ret : MRet result := fun A a => Ok a.
#[global] Instance result_bind : MBind result := fun A B f r =>
  match r with
  | Ok a => f a
  | Raise e => Raise e
  end.
#[global] Instance result_fmap : FMap result := fun A B f r =>
  match r with
  | Ok a => Ok (f a)
  | Raise e => Raise e
  end.

(** ** Python strings *)

(** [x in s] for two strings: [x] occurs in [s] as a substring. *)
Definition py_in (x s : string) : bool :=
  match String.index 0 x s with
  | Some _ => true
  | None => false
  end.

(** [s.index(x)]: the position of the first occurrence of [x] in [s];
    [ValueError] when there is none. *)
Definition py_index (s x : string) : result Z :=
  match String.index 0 x s with
  | Some n => Ok (Z.of_nat n)
  | None => Raise (ValueError "substring not found")
  end.

(** [str(z)] for an int. *)
Definition int_str (z : Z) : string := NilZero.string_of_int (Z.to_int z).

Section Cells.
Variable py : Lib.

(** [str] of a cell, the missing value included: one element of
    [Series.astype('str')] in pandas 1 and 2. *)
Definition astype_str (c : cell) : string :=
  match c with
  | NaN => "nan"
  | Num (Int z) => int_str z
  | Num (Float q) => float_str py q
  | Num (Inf false) => "inf"
  | Num (Inf true) => "-inf"
  | Str s => s
  end.

(** One element of [Series.astype('str')] in every version: a value
    becomes its string, a missing value what the version makes of it. *)
Definition astype_str_na (c : cell) : option string :=
  match c with
  | NaN => null_str py
  | _ => Some (astype_str c)
  end.

(** One element of [pd.to_numeric(s, errors='coerce')]: a string is read
    as a number, or becomes missing when it is not one; numbers and missing
    values stay.  pandas then stores the column as float64 when one of its
    cells is missing or fractional, which writes an integer 450 as 450.0:
    the same number for an integer up to 2^53, and the model keeps the
    number read. *)
Definition to_numeric_coerce (c : cell) : cell :=
  match c with
  | Str s =>
      match str_to_number py s with
      | Some n => Num n
      | None => NaN
      end
  | _ => c
  end.
End Cells.

(** ** Tables *)

(** A table: the labels of its rows ([df.index]) and its columns in order,
    each a name with one cell per row. *)
Record DataFrame : Type := {
  rows : list nat;
  cols : list (string * Series)
}.

Definition empty_frame : DataFrame := {| rows := []; cols := [] |}.

(** [df.columns] and [len(df)] *)
Definition columns (d : DataFrame) : list string := map fst (cols d).
Definition nrows (d : DataFrame) : nat := List.length (rows d).

Fixpoint col_lookup (c : string) (l : list (string * Series)) : option Series :=
  match l with
  | [] => None
  | (k, s) :: l' => if String.eqb k c then Some s else col_lookup c l'
  end.

(** [d[c] = s] on the list of columns: an existing column is replaced where
    it stands, a new one is appended. *)
Fixpoint col_assign (c : string) (s : Series) (l : list (string * Series))
  : list (string * Series) :=
  match l with
  | [] => [(c, s)]
  | (k, v) :: l' =>
      if String.eqb k c then (k, s) :: l' else (k, v) :: col_assign c s l'
  end.

(** The elements of [l] at the positions where [mask] is true. *)
Fixpoint select {A : Type} (mask : list bool) (l : list A) : list A :=
  match mask, l with
  | b :: mask', x :: l' => if b then x :: select mask' l' else select mask' l'
  | _, _ => []
  end.

(** [d[c]]: [KeyError] when [d] has no column [c]. *)
Definition frame_getitem (d : DataFrame) (c : string) : result Series :=
  match col_lookup c (cols d) with
  | Some s => Ok s
  | None => Raise (KeyError [c])
  end.

(** The table [d[c] = s] leaves. *)
Definition frame_setitem (d : DataFrame) (c : string) (s : Series) : DataFrame :=
  {| rows := rows d; cols := col_assign c s (cols d) |}.

(** [d[mask]] for a boolean mask: the rows where the mask is true. *)
Definition frame_select (d : DataFrame) (mask : list bool) : DataFrame :=
  {| rows := select mask (rows d);
     cols := map (fun kv => (fst kv, select mask (snd kv))) (cols d) |}.

(** The rows that hold a value in every column of [subset]. *)
Definition complete_rows (d : DataFrame) (subset : list string) : list bool :=
  foldr (fun c mask =>
           zip_with andb (map notna (default [] (col_lookup c (cols d)))) mask)
        (replicate (nrows d) true) subset.

(** [d.dropna(subset=subset)]: [KeyError] with the names of [subset] that
    are not columns of [d]. *)
Definition frame_dropna (d : DataFrame) (subset : list string) : result DataFrame :=
  match filter (fun c => c ∉ columns d) subset with
  | [] => Ok (frame_select d (complete_rows d subset))
  | missing => Raise (KeyError missing)
  end.

(** ** The heap of tables *)

Abbreviation ref := nat.
Abbreviation heap := (list DataFrame).

(** A computation reads and updates the heap and returns or raises. *)
Definition M (A : Type) : Type := heap -> result A * heap.

#[global] Instance M_ret : MRet M := fun A a h => (Ok a, h).
#[global] Instance M_bind : MBind M := fun A B f m h =>
  match m h with
  | (Ok a, h') => f a h'
  | (Raise e, h') => (Raise e, h')
  end.

Definition lift {A} (x : result A) : M A := fun h => (x, h).
Definition load (r : ref) : M DataFrame :=
  fun h => (Ok (default empty_frame (h !! r)), h).
Definition store (r : ref) (d : DataFrame) : M unit :=
  fun h => (Ok tt, <[r := d]> h).
Definition alloc (d : DataFrame) : M ref :=
  fun h => (Ok (List.length h), h ++ [d]).

(** [for x in l: body(x)] *)
Fixpoint for_ {A} (l : list A) (body : A -> M unit) : M unit :=
  match l with
  | [] => mret tt
  | x :: l' => body x ;; for_ l' body
  end.

(** The pandas operations of [preparar_dados], on references. *)

(** [df.copy()] *)
Definition copy (df : ref) : M ref := d ← load df; alloc d.

(** [df[c]] *)
Definition getitem (df : ref) (c : string) : M Series :=
  d ← load df; lift (frame_getitem d c).

(** [df[mask]] *)
Definition getitem_mask (df : ref) (mask : list bool) : M ref :=
  d ← load df; alloc (frame_select d mask).

(** [df.dropna(subset=subset)] *)
Definition dropna (df : ref) (subset : list string) : M ref :=
  d ← load df; d' ← lift (frame_dropna d subset); alloc d'.

(** [df[c] = s] *)
Definition setitem (df : ref) (c : string) (s : Series) : M unit :=
  d ← load df; store df (frame_setitem d c s).

(** [c in df.columns] *)
Definition in_columns (c : string) (df : ref) : M bool :=
  d ← load df; mret (bool_decide (c ∈ columns d)).

(** ** Series *)

(** [s == v] *)
Definition Series_eq (s : Series) (v : cell) : list bool :=
  map (fun c => py_eq c v) s.

(** The key a cell is in a dict whose keys are ints: [1.0] finds the key
    [1]. *)
Definition int_key (c : cell) : option Z :=
  match c with
  | Num (Int z) => Some z
  | Num (Float q) =>
      if (Qnum q mod Z.pos (Qden q) =? 0) then Some (Qnum q / Z.pos (Qden q))
      else None
  | _ => None
  end.

(** The key a cell is in a dict whose keys are strings. *)
Definition str_key (c : cell) : option string :=
  match c with
  | Str s => Some s
  | _ => None
  end.

(** [s.map(m)] for a dict [m]: the label of each cell, missing when the
    cell is not a key of [m]. *)
Definition Series_map_dict `{Countable K} (key : cell -> option K)
    (m : gmap K string) (s : Series) : Series :=
  map (fun c => match key c ≫= (m !!.) with
                | Some l => Str l
                | None => NaN
                end) s.

(** [s.map(f)] for a function [f] that can raise: the cells in order, the
    first exception ends the call. *)
Definition Series_map_fn {A B} (f : A -> result B) (s : list A) : result (list B) :=
  mapM f s.

(** ** pd.cut *)

Fixpoint nondecreasing (l : list Z) : bool :=
  match l with
  | a :: (b :: _) as l' => (a <=? b) && nondecreasing l'
  | _ => true
  end.

(** The interval [(bins[i], bins[i+1]]] that holds [v], if any
    ([right=True], [include_lowest=False]). *)
Fixpoint bin_of (bins : list Z) (v : Z) : option nat :=
  match bins with
  | lo :: (hi :: _) as bins' =>
      if (lo <? v) && (v <=? hi) then Some 0%nat else S <$> bin_of bins' v
  | _ => None
  end.

(** [pd.cut(x, bins=bins, labels=labels)] for a list of bin edges, a list of
    labels and integer values.  The edges and the labels are checked, in
    the order of pandas, before any value is labelled; the message about
    duplicate edges goes on with the edges themselves. *)
Definition pd_cut (x : list Z) (bins : list Z) (labels : list string)
  : result Series :=
  if negb (nondecreasing bins) then
    Raise (ValueError "bins must increase monotonically.")
  else if negb (bool_decide (NoDup bins)) && negb (List.length bins =? 2)%nat then
    Raise (ValueError "Bin edges must be unique")
  else if negb (bool_decide (NoDup labels)) then
    Raise (ValueError "labels must be unique if ordered=True; pass ordered=False for duplicate labels")
  else if negb (Z.of_nat (List.length labels) =? Z.of_nat (List.length bins) - 1) then
    Raise (ValueError "Bin labels must be one fewer than the number of bin edges")
  else
    Ok (map (fun v => match bin_of bins v ≫= (labels !!.) with
                      | Some l => Str l
                      | None => NaN
                      end) x).

(** ** The lookup tables of [preparar_dados] (lines 106-189) *)

Definition mapa_faixa_etaria : gmap Z string := list_to_map [
  (1, "Menor de 17 anos");
  (2, "17 anos");
  (3, "18 anos");
  (4, "19 anos");
  (5, "20 anos");
  (6, "21 anos");
  (7, "22 anos");
  (8, "23 anos");
  (9, "24 anos");
  (10, "25 anos");
  (11, "Entre 26 e 30 anos");
  (12, "Entre 31 e 35 anos");
  (13, "Entre 36 e 40 anos");
  (14, "Entre 41 e 45 anos");
  (15, "Entre 46 e 50 anos");
  (16, "Entre 51 e 55 anos");
  (17, "Entre 56 e 60 anos");
  (18, "Entre 61 e 65 anos");
  (19, "Entre 66 e 70 anos");
  (20, "Maior de 70 anos")
].

Definition mapa_tipo_escola : gmap Z string := list_to_map [
  (1, "Não Respondeu");
  (2, "Pública");
  (3, "Privada");
  (4, "Exterior")
].

Definition mapa_localizacao : gmap Z string := list_to_map [
  (1, "Urbana");
  (2, "Rural")
].

Definition mapa_escolaridade : gmap string string := list_to_map [
  ("A", "Nunca estudou");
  ("B", "Ensino Fundamental I Incompleto");
  ("C", "Ensino Fundamental I Completo");
  ("D", "Ensino Fundamental II Incompleto");
  ("E", "Ensino Fundamental II Completo");
  ("F", "Ensino Médio Incompleto");
  ("G", "Ensino Médio Completo");
  ("H", "Ensino Superior Incompleto");
  ("I", "Ensino Superior Completo");
  ("J", "Pós-graduação")
].

Definition mapa_renda : gmap string string := list_to_map [
  ("A", "Nenhuma renda");
  ("B", "Até R$ 1.412,00");
  ("C", "R$ 1.412,01 a R$ 2.824,00");
  ("D", "R$ 2.824,01 a R$ 4.236,00");
  ("E", "R$ 4.236,01 a R$ 5.648,00");
  ("F", "R$ 5.648,01 a R$ 7.060,00");
  ("G", "R$ 7.060,01 a R$ 8.472,00");
  ("H", "R$ 8.472,01 a R$ 9.884,00");
  ("I", "R$ 9.884,01 a R$ 11.296,00");
  ("J", "R$ 11.296,01 a R$ 12.708,00");
  ("K", "R$ 12.708,01 a R$ 14.120,00");
  ("L", "R$ 14.120,01 a R$ 15.532,00");
  ("M", "R$ 15.532,01 a R$ 16.944,00");
  ("N", "R$ 16.944,01 a R$ 18.356,00");
  ("O", "R$ 18.356,01 a R$ 19.768,00");
  ("P", "R$ 19.768,01 a R$ 21.180,00");
  ("Q", "Acima de R$ 21.180,01")
].

Definition mapa_internet : gmap string string := list_to_map [
  ("A", "Sim");
  ("B", "Não")
].

(** ** The income index *)

(** The lambda of line 193:
    ['A B C D E F G H I J K L M N O P Q'.index(x) if x in 'ABCDEFGHIJKLMNOPQ' else -1] *)
Definition indice_faixa_renda (x : string) : result Z :=
  if py_in x "ABCDEFGHIJKLMNOPQ"
  then py_index "A B C D E F G H I J K L M N O P Q" x
  else Ok (-1).

(** The lambda of line 374 ([analisar_renda_notas], column INDICE_RENDA):
    the same with [np.nan] in the place of [-1]. *)
Definition indice_renda (x : string) : result cell :=
  if py_in x "ABCDEFGHIJKLMNOPQ"
  then (fun i => Num (Int i)) <$> py_index "A B C D E F G H I J K L M N O P Q" x
  else Ok NaN.

(** The lambda of line 193 on an element of the column after
    [astype('str')]: on an element that is still missing, a float and not a
    string, [x in 'ABCDEFGHIJKLMNOPQ'] raises [TypeError]. *)
Definition indice_do_elemento (x : option string) : result Z :=
  match x with
  | Some s => indice_faixa_renda s
  | None => Raise (TypeError "'in <string>' requires string as left operand, not float")
  end.

(** ** preparar_dados *)

Definition colunas_numericas : list string :=
  ["NU_NOTA_CN"; "NU_NOTA_CH"; "NU_NOTA_LC"; "NU_NOTA_MT"; "NU_NOTA_REDACAO"].

(** The bin edges and the labels of the call of [pd.cut] (lines 194-195). *)
Definition bins_faixa_renda : list Z := [-1; 0; 3; 6; 10; 16].
Definition labels_faixa_renda : list string :=
  ["Sem resposta"; "Baixa"; "Média-Baixa"; "Média"; "Média-Alta"; "Alta"].

Section Preparar.
Variable py : Lib.

(** Lines 88-94: the copy, the rows present at the Humanities exam, and of
    these the rows with a Humanities score. *)
Definition filtrar_presentes (df : ref) : M ref :=
  df_clean ← copy df;
  presenca ← getitem df_clean "TP_PRESENCA_CH";
  df_clean ← getitem_mask df_clean (Series_eq presenca (Num (Int 1)));
  dropna df_clean ["NU_NOTA_CH"].

(** Lines 96-101: the score columns the table has are made numeric. *)
Definition ajustar_tipos (df_clean : ref) : M unit :=
  for_ colunas_numericas (fun col =>
    present ← in_columns col df_clean;
    if (present : bool) then
      s ← getitem df_clean col;
      setitem df_clean col (map (to_numeric_coerce py) s)
    else mret tt).

(** Lines 103-189: the seven label columns. *)
Definition criar_variaveis (df_clean : ref) : M unit :=
  (s ← getitem df_clean "TP_FAIXA_ETARIA";
   setitem df_clean "FAIXA_ETARIA_DESC" (Series_map_dict int_key mapa_faixa_etaria s));;
  (s ← getitem df_clean "TP_ESCOLA";
   setitem df_clean "TIPO_ESCOLA_DESC" (Series_map_dict int_key mapa_tipo_escola s));;
  (s ← getitem df_clean "TP_LOCALIZACAO_ESC";
   setitem df_clean "LOCALIZACAO_ESCOLA_DESC" (Series_map_dict int_key mapa_localizacao s));;
  (s ← getitem df_clean "Q001";
   setitem df_clean "ESCOLARIDADE_PAI" (Series_map_dict str_key mapa_escolaridade s));;
  (s ← getitem df_clean "Q002";
   setitem df_clean "ESCOLARIDADE_MAE" (Series_map_dict str_key mapa_escolaridade s));;
  (s ← getitem df_clean "Q006";
   setitem df_clean "RENDA_FAMILIAR" (Series_map_dict str_key mapa_renda s));;
  (s ← getitem df_clean "Q025";
   setitem df_clean "ACESSO_INTERNET" (Series_map_dict str_key mapa_internet s)).

(** Lines 192-196: the income bucket.  The arguments of [pd.cut] are
    evaluated first, so the lambda runs over the whole column before
    [pd.cut] is entered. *)
Definition agrupar_renda (df_clean : ref) : M unit :=
  q006 ← getitem df_clean "Q006";
  indices ← lift (Series_map_fn indice_do_elemento (map (astype_str_na py) q006));
  faixa ← lift (pd_cut indices bins_faixa_renda labels_faixa_renda);
  setitem df_clean "FAIXA_RENDA" faixa.

(** Lines 87-189: the table [df_clean] as it stands when line 192 is
    reached. *)
Definition limpar_e_derivar (df : ref) : M ref :=
  df_clean ← filtrar_presentes df;
  ajustar_tipos df_clean;;
  criar_variaveis df_clean;;
  mret df_clean.

(** Lines 74-198. *)
Definition preparar_dados (df : ref) : M ref :=
  df_clean ← limpar_e_derivar df;
  agrupar_renda df_clean;;
  mret df_clean.
End Preparar.

(** The columns a call reads without a guard, in the order it reads them. *)
Definition colunas_obrigatorias : list string :=
  ["TP_PRESENCA_CH"; "NU_NOTA_CH"; "TP_FAIXA_ETARIA"; "TP_ESCOLA";
   "TP_LOCALIZACAO_ESC"; "Q001"; "Q002"; "Q006"; "Q025"].

(** The columns lines 103-189 assign. *)
Definition colunas_derivadas : list string :=
  ["FAIXA_ETARIA_DESC"; "TIPO_ESCOLA_DESC"; "LOCALIZACAO_ESCOLA_DESC";
   "ESCOLARIDADE_PAI"; "ESCOLARIDADE_MAE"; "RENDA_FAMILIAR"; "ACESSO_INTERNET"].

(** ** Decimal notation: an instance of the library functions

    [decimal_of_string] reads a number in a string and [decimal_str] writes
    the decimal expansion of a float, with at least one digit after the
    point as Python does. *)

Definition digit_of (a : ascii) : option Z :=
  let n := Z.of_nat (nat_of_ascii a) in
  if (48 <=? n) && (n <=? 57) then Some (n - 48) else None.

Definition is_digit (a : ascii) : bool :=
  match digit_of a with
  | Some _ => true
  | None => false
  end.

(** White space: the space and the characters 9 to 13. *)
Definition is_space (a : ascii) : bool :=
  let n := nat_of_ascii a in
  (n =? 32)%nat || ((9 <=? n)%nat && (n <=? 13)%nat).

Definition lower (a : ascii) : ascii :=
  let n := nat_of_ascii a in
  if (65 <=? n)%nat && (n <=? 90)%nat then ascii_of_nat (n + 32) else a.

(** The longest prefix of characters that satisfy [p], and what follows. *)
Fixpoint span (p : ascii -> bool) (l : list ascii) : list ascii * list ascii :=
  match l with
  | a :: l' => if p a then (a :: (span p l').1, (span p l').2) else ([], l)
  | [] => ([], [])
  end.

(** The value of a list of digits. *)
Definition digits_value (ds : list ascii) : Z :=
  fold_left (fun acc a => 10 * acc + default 0 (digit_of a)) ds 0.

Definition read_sign (l : list ascii) : Z * list ascii :=
  match l with
  | a :: l' =>
      if Ascii.eqb a "-" then (-1, l')
      else if Ascii.eqb a "+" then (1, l')
      else (1, l)
  | [] => (1, l)
  end.

(** An optional point followed by digits: whether there is a point, the
    digits and what follows. *)
Definition read_fraction (l : list ascii) : bool * list ascii * list ascii :=
  match l with
  | a :: l' =>
      if Ascii.eqb a "." then (true, (span is_digit l').1, (span is_digit l').2)
      else (false, [], l)
  | [] => (false, [], l)
  end.

(** An optional exponent, [e] or [E] with an optional sign and at least one
    digit: whether there is one, its value and what follows.  Without a
    digit the [e] is not part of the numeral. *)
Definition read_exponent (l : list ascii) : bool * Z * list ascii :=
  match l with
  | a :: l' =>
      if Ascii.eqb (lower a) "e" then
        let '(s, l1) := read_sign l' in
        match (span is_digit l1).1 with
        | [] => (false, 0, l)
        | ds => (true, s * digits_value ds, (span is_digit l1).2)
        end
      else (false, 0, l)
  | [] => (false, 0, l)
  end.

(** The words for an infinity, in any case. *)
Definition infinity_word (l : list ascii) : option bool :=
  let w := string_of_list_ascii (map lower l) in
  if existsb (String.eqb w) ["inf"; "+inf"; "infinity"; "+infinity"] then Some false
  else if existsb (String.eqb w) ["-inf"; "-infinity"] then Some true
  else None.

(** The least magnitude that is beyond the finite float64: it rounds to an
    infinity. *)
Definition float64_limit : Z := 2 ^ 1024 - 2 ^ 970.

(** A decimal numeral between optional white space. *)
Definition numeral (l : list ascii) : option number :=
  let '(sign, l1) := read_sign (span is_space l).2 in
  let ip := (span is_digit l1).1 in
  let '(point, fp, l2) := read_fraction (span is_digit l1).2 in
  let '(expo, e, l3) := read_exponent l2 in
  match ip ++ fp, (span is_space l3).2 with
  | _ :: _, [] =>
      let m := sign * digits_value (ip ++ fp) in
      let k := Z.of_nat (length fp) - e in
      if negb point && negb expo && (- 2 ^ 63 <=? m) && (m <? 2 ^ 64) then Some (Int m)
      else if (0 <=? k) && (Z.abs m <? float64_limit * 10 ^ k)
      then Some (Float (Qmake m (Z.to_pos (10 ^ k))))
      else if (k <? 0) && (Z.abs m * 10 ^ (- k) <? float64_limit)
      then Some (Float (Qmake (m * 10 ^ (- k)) 1))
      else None
  | _, _ => None
  end.

(** Modelled from the spec: the numeric interpretation of a raw value that
    is a valid number string, and no number for any other string (spec
    section 4.1, step 3, and the property of section 8 with its examples
    ["450.5"] and ["abc"]).  The source leaves the reading to
    [pd.to_numeric], which is not part of the program; the valid number
    strings are taken to be those pandas reads: a decimal numeral -- an
    optional sign, digits with an optional point, an optional exponent --
    between optional white space, or a word for an infinity.  A numeral
    without point and exponent is an integer when it fits 64 bits; every
    other numeral is a float, written as the exact value of the numeral
    (pandas stores the float64 nearest to it, and reads no more than 17
    digits), and is no number when its value is beyond the finite
    float64. *)
Definition decimal_of_string (s : string) : option number :=
  let l := list_ascii_of_string s in
  match infinity_word l with
  | Some b => Some (Inf b)
  | None => numeral l
  end.

(** The number of decimals that writes [n / d] exactly, among the first
    [fuel]; [fuel] itself when there is none. *)
Fixpoint decimals (n d : Z) (k fuel : nat) : nat :=
  match fuel with
  | O => k
  | S fuel' =>
      if (n * 10 ^ Z.of_nat k) mod d =? 0 then k else decimals n d (S k) fuel'
  end.

Fixpoint pad_digits (width : nat) (v : Z) (acc : string) : string :=
  match width with
  | O => acc
  | S w => pad_digits w (v / 10) (String (ascii_of_nat (Z.to_nat (48 + v mod 10))) acc)
  end.

Definition decimal_str (q : Q) : string :=
  let n := Qnum q in
  let d := Z.pos (Qden q) in
  let k := decimals (Z.abs n) d 0 30 in
  let m := Z.abs n * 10 ^ Z.of_nat k / d in
  let ip := m / 10 ^ Z.of_nat k in
  let fp := m mod 10 ^ Z.of_nat k in
  String.append (if n <? 0 then "-" else "")
    (String.append (int_str ip)
       (String.append "." (if (k =? 0)%nat then "0" else pad_digits k fp ""))).

(** pandas 1 and 2. *)
Definition decimal : Lib :=
  {| float_str := decimal_str;
     str_to_number := decimal_of_string;
     null_str := Some "nan" |}.

(** pandas 3. *)
Definition decimal3 : Lib :=
  {| float_str := decimal_str;
     str_to_number := decimal_of_string;
     null_str := None |}.

(** ** The table each step leaves

    The steps of [preparar_dados] as functions from the table they start
    with to the table they leave, or to the exception they raise.  The
    lemmas [filtrar_presentes_run] to [preparar_dados_run] below show that
    the program on the heap computes them. *)

Section Steps.
Variable py : Lib.

(** Lines 88-94. *)
Definition presentes (d : DataFrame) : result DataFrame :=
  presenca ← frame_getitem d "TP_PRESENCA_CH";
  frame_dropna (frame_select d (Series_eq presenca (Num (Int 1)))) ["NU_NOTA_CH"].

(** One turn of the loop of lines 99-101. *)
Definition ajustar_coluna (d : DataFrame) (col : string) : DataFrame :=
  if bool_decide (col ∈ columns d)
  then frame_setitem d col
         (map (to_numeric_coerce py) (default [] (col_lookup col (cols d))))
  else d.

(** Lines 96-101. *)
Definition tipos_ajustados (d : DataFrame) : DataFrame :=
  foldl ajustar_coluna d colunas_numericas.

(** [d[dst] = d[src].map(...)] *)
Definition derivar_coluna (src dst : string) (g : Series -> Series)
    (d : DataFrame) : result DataFrame :=
  s ← frame_getitem d src; mret (frame_setitem d dst (g s)).

(** Lines 103-189. *)
Definition variaveis_criadas (d : DataFrame) : result DataFrame :=
  d ← derivar_coluna "TP_FAIXA_ETARIA" "FAIXA_ETARIA_DESC"
        (Series_map_dict int_key mapa_faixa_etaria) d;
  d ← derivar_coluna "TP_ESCOLA" "TIPO_ESCOLA_DESC"
        (Series_map_dict int_key mapa_tipo_escola) d;
  d ← derivar_coluna "TP_LOCALIZACAO_ESC" "LOCALIZACAO_ESCOLA_DESC"
        (Series_map_dict int_key mapa_localizacao) d;
  d ← derivar_coluna "Q001" "ESCOLARIDADE_PAI"
        (Series_map_dict str_key mapa_escolaridade) d;
  d ← derivar_coluna "Q002" "ESCOLARIDADE_MAE"
        (Series_map_dict str_key mapa_escolaridade) d;
  d ← derivar_coluna "Q006" "RENDA_FAMILIAR"
        (Series_map_dict str_key mapa_renda) d;
  derivar_coluna "Q025" "ACESSO_INTERNET"
        (Series_map_dict str_key mapa_internet) d.

(** Lines 192-196. *)
Definition renda_agrupada (d : DataFrame) : result DataFrame :=
  q006 ← frame_getitem d "Q006";
  indices ← Series_map_fn indice_do_elemento (map (astype_str_na py) q006);
  faixa ← pd_cut indices bins_faixa_renda labels_faixa_renda;
  mret (frame_setitem d "FAIXA_RENDA" faixa).

(** Lines 87-189. *)
Definition derivado (d : DataFrame) : result DataFrame :=
  d ← presentes d; variaveis_criadas (tipos_ajustados d).

(** Lines 74-198. *)
Definition preparado (d : DataFrame) : result DataFrame :=
  d ← derivado d; renda_agrupada d.
End Steps.

(** Lines 103-189 as a list: the column read, the column assigned and the
    table of labels. *)
Definition derivacoes : list (string * string * (Series -> Series)) := [
  ("TP_FAIXA_ETARIA", "FAIXA_ETARIA_DESC", Series_map_dict int_key mapa_faixa_etaria);
  ("TP_ESCOLA", "TIPO_ESCOLA_DESC", Series_map_dict int_key mapa_tipo_escola);
  ("TP_LOCALIZACAO_ESC", "LOCALIZACAO_ESCOLA_DESC", Series_map_dict int_key mapa_localizacao);
  ("Q001", "ESCOLARIDADE_PAI", Series_map_dict str_key mapa_escolaridade);
  ("Q002", "ESCOLARIDADE_MAE", Series_map_dict str_key mapa_escolaridade);
  ("Q006", "RENDA_FAMILIAR", Series_map_dict str_key mapa_renda);
  ("Q025", "ACESSO_INTERNET", Series_map_dict str_key mapa_internet)
].

Definition origem (sp : string * string * (Series -> Series)) : string := sp.1.1.
Definition destino (sp : string * string * (Series -> Series)) : string := sp.1.2.

Fixpoint aplicar (specs : list (string * string * (Series -> Series)))
    (d : DataFrame) : result DataFrame :=
  match specs with
  | [] => Ok d
  | sp :: specs' =>
      d' ← derivar_coluna (origem sp) (destino sp) sp.2 d; aplicar specs' d'
  end.

(** A step that works in place on the table at a reference computes [f]:
    it leaves [f d] where it found [d], and raises what [f] raises. *)
Definition runs_as (m : ref -> M unit) (f : DataFrame -> result DataFrame) : Prop :=
  forall (h : heap) (c : ref) (d : DataFrame),
    h !! c = Some d ->
    match f d with
    | Ok d' => m c h = (Ok tt, <[c := d']> h)
    | Raise e => exists d', m c h = (Raise e, <[c := d']> h)
    end.

(** The rows of a table that lines 88-94 keep, as a selection on any list
    with one element per row. *)
Definition manter {A} (d : DataFrame) (l : list A) : list A :=
  let presenca := default [] (col_lookup "TP_PRESENCA_CH" (cols d)) in
  let m1 := Series_eq presenca (Num (Int 1)) in
  select (complete_rows (frame_select d m1) ["NU_NOTA_CH"]) (select m1 l).

(** The column [c] of the table at [r], if there is one. *)
Definition coluna (h : heap) (r : ref) (c : string) : option Series :=
  h !! r ≫= fun d => col_lookup c (cols d).

(** Every row of the table was present at the Humanities exam
    ([TP_PRESENCA_CH == 1]) and has a Humanities score. *)
Definition so_presentes_com_nota (d : DataFrame) : Prop :=
  exists p s,
    col_lookup "TP_PRESENCA_CH" (cols d) = Some p /\
    col_lookup "NU_NOTA_CH" (cols d) = Some s /\
    Forall (fun c => py_eq c (Num (Int 1)) = true) p /\
    Forall (fun c => notna c = true) s.

(** The lambda of line 193 gives the cell an index: the string
    [astype('str')] makes of the cell does not occur in the seventeen
    letters, or has at most one character. *)
Definition tem_indice (py : Lib) (c : cell) : bool :=
  match astype_str_na py c with
  | Some x => negb (py_in x "ABCDEFGHIJKLMNOPQ") || (String.length x <=? 1)%nat
  | None => false
  end.

(** The characters that occur in the strings read as numbers. *)
Definition numeral_char (a : ascii) : bool :=
  is_digit a || is_space a ||
  existsb (Ascii.eqb (lower a)) ["+"; "-"; "."; "e"; "i"; "n"; "f"; "t"; "y"]%char.

(** A table whose columns all have one cell per row, as every pandas table
    has. *)
Definition bem_formado (d : DataFrame) : Prop :=
  Forall (fun kv => length kv.2 = nrows d) (cols d).

(** ** analisar_internet_notas: the two groups of the t-test

    Lines 543-544: [df[df['ACESSO_INTERNET'] == resposta]['NU_NOTA_CH']],
    with ['Sim'] and with ['Não']. *)
Definition grupo_internet (df : ref) (resposta : string) : M Series :=
  acesso ← getitem df "ACESSO_INTERNET";
  grupo ← getitem_mask df (Series_eq acesso (Str resposta));
  getitem grupo "NU_NOTA_CH".

(** ** analisar_renda_notas: the order of the income labels

    Lines 323-341, the labels from the lowest income to the highest. *)
Definition ordem_renda : list string := [
  "Nenhuma renda";
  "Até R$ 1.412,00";
  "R$ 1.412,01 a R$ 2.824,00";
  "R$ 2.824,01 a R$ 4.236,00";
  "R$ 4.236,01 a R$ 5.648,00";
  "R$ 5.648,01 a R$ 7.060,00";
  "R$ 7.060,01 a R$ 8.472,00";
  "R$ 8.472,01 a R$ 9.884,00";
  "R$ 9.884,01 a R$ 11.296,00";
  "R$ 11.296,01 a R$ 12.708,00";
  "R$ 12.708,01 a R$ 14.120,00";
  "R$ 14.120,01 a R$ 15.532,00";
  "R$ 15.532,01 a R$ 16.944,00";
  "R$ 16.944,01 a R$ 18.356,00";
  "R$ 18.356,01 a R$ 19.768,00";
  "R$ 19.768,01 a R$ 21.180,00";
  "Acima de R$ 21.180,01"
].

(** [{v: i for i, v in enumerate(l)}]: a later position replaces an earlier
    one with the same label. *)
Definition posicoes (l : list string) : gmap string Z :=
  fold_left (fun m iv => <[iv.2 := Z.of_nat iv.1]> m) (combine (seq 0 (length l)) l) ∅.

(** One element of line 360,
    [media_por_renda['RENDA_FAMILIAR'].map({v: i for i, v in enumerate(ordem_renda)})]:
    the position of the label, missing when the cell is not one of the
    labels. *)
Definition ordem_do_rotulo (c : cell) : cell :=
  match str_key c ≫= (posicoes ordem_renda !!.) with
  | Some i => Num (Int i)
  | None => NaN
  end.

(** One element of line 182, [df_clean['Q006'].map(mapa_renda)]. *)
Definition rotulo_renda (c : cell) : cell :=
  match str_key c ≫= (mapa_renda !!.) with
  | Some l => Str l
  | None => NaN
  end.

(** ** main (lines 885-919)

    What [main] writes, line by line.  The two lines that format a value
    carry the value: the shape of the table and the exception. *)
Inductive saida : Type :=
| Print (s : string)
| PrintShape (linhas colunas : nat)
| PrintErro (e : exn)
| PrintTraceback.

(** A computation of [main] also appends to what was written. *)
Definition IO (A : Type) : Type :=
  heap * list saida -> result A * (heap * list saida).

#[global] Instance IO_ret : MRet IO := fun A a w => (Ok a, w).
#[global] Instance IO_bind : MBind IO := fun A B f m w =>
  match m w with
  | (Ok a, w') => f a w'
  | (Raise e, w') => (Raise e, w')
  end.

Definition run_M {A} (m : M A) : IO A :=
  fun w => let '(r, h') := m w.1 in (r, (h', w.2)).

Definition escrever (o : saida) : IO unit :=
  fun w => (Ok tt, (w.1, w.2 ++ [o])).

(** [print(f"Dados preparados. Shape após limpeza: {df.shape}")] *)
Definition print_shape (df : ref) : IO unit :=
  d ← run_M (load df); escrever (PrintShape (nrows d) (length (columns d))).

(** [try: body except Exception as e: handler(e)] *)
Definition try_except {A} (body : IO A) (handler : exn -> IO A) : IO A :=
  fun w =>
    match body w with
    | (Ok a, w') => (Ok a, w')
    | (Raise e, w') => handler e w'
    end.

(** The nine report functions [main] calls, which draw and print through
    seaborn, matplotlib and scipy: any computations on the table. *)
Record Analises : Type := {
  analisar_distribuicao_notas : ref -> IO unit;
  analisar_idade_notas : ref -> IO unit;
  analisar_renda_notas : ref -> IO unit;
  analisar_escolaridade_pais_notas : ref -> IO unit;
  analisar_internet_notas : ref -> IO unit;
  analisar_tipo_escola_notas : ref -> IO unit;
  analisar_localizacao_escola_notas : ref -> IO unit;
  analisar_uf_escola_notas : ref -> IO unit;
  analisar_municipio_prova_notas : ref -> IO unit
}.

Definition nova_linha (s : string) : string := String "010"%char s.

(** [dados] is the global of lines 52-71: the table [read_csv] returned, or
    nothing when the load failed. *)
Definition main (py : Lib) (an : Analises) (dados : option ref) : IO unit :=
  try_except
    (match dados with
     | Some df =>
         escrever (Print "Utilizando dados já carregados");;
         escrever (Print (nova_linha "Preparando os dados para análise..."));;
         df_clean ← run_M (preparar_dados py df);
         print_shape df_clean;;
         analisar_distribuicao_notas an df_clean;;
         analisar_idade_notas an df_clean;;
         analisar_renda_notas an df_clean;;
         analisar_escolaridade_pais_notas an df_clean;;
         analisar_internet_notas an df_clean;;
         analisar_tipo_escola_notas an df_clean;;
         analisar_localizacao_escola_notas an df_clean;;
         analisar_uf_escola_notas an df_clean;;
         analisar_municipio_prova_notas an df_clean;;
         escrever (Print (nova_linha "Todasas análises foram concluídas com sucesso!"))
     | None =>
         escrever (Print "Dados não encontrados. Por favor, carregue os dados primeiro.")
     end)
    (fun e => escrever (PrintErro e);; escrever PrintTraceback).

(** Report functions that do nothing, to run [main] on an example. *)
Definition sem_analises : Analises :=
  let nada : ref -> IO unit := fun _ => mret tt in
  {| analisar_distribuicao_notas := nada;
     analisar_idade_notas := nada;
     analisar_renda_notas := nada;
     analisar_escolaridade_pais_notas := nada;
     analisar_internet_notas := nada;
     analisar_tipo_escola_notas := nada;
     analisar_localizacao_escola_notas := nada;
     analisar_uf_escola_notas := nada;
     analisar_municipio_prova_notas := nada |}.

(** ** Tables for the examples *)

Module Exemplos.

(** Five candidates; the second was absent from the Humanities exam. *)
Definition cinco : DataFrame := {|
  rows := [0; 1; 2; 3; 4]%nat;
  cols := [
    ("TP_FAIXA_ETARIA", [Num (Int 3); Num (Int 2); Num (Int 11); Num (Int 5); Num (Int 3)]);
    ("TP_ESCOLA", [Num (Int 2); Num (Int 2); Num (Int 1); Num (Int 3); Num (Int 2)]);
    ("TP_LOCALIZACAO_ESC", [Num (Int 1); Num (Int 1); NaN; Num (Int 1); Num (Int 2)]);
    ("Q001", [Str "E"; Str "B"; Str "G"; Str "I"; Str "A"]);
    ("Q002", [Str "G"; Str "D"; Str "G"; Str "J"; Str "C"]);
    ("Q006", [Str "F"; Str "B"; Str "C"; Str "Q"; Str "A"]);
    ("Q025", [Str "A"; Str "B"; Str "A"; Str "A"; Str "B"]);
    ("NU_NOTA_CH", [Num (Float 550); Num (Float 480); Num (Float 512.3);
                    Num (Float 701.9); Num (Float 390)]);
    ("TP_PRESENCA_CH", [Num (Int 1); Num (Int 0); Num (Int 1); Num (Int 1); Num (Int 1)])
  ] |}.

(** One candidate whose Humanities score is text that is not a number. *)
Definition nota_texto : DataFrame := {|
  rows := [0]%nat;
  cols := [
    ("TP_FAIXA_ETARIA", [Num (Int 3)]);
    ("TP_ESCOLA", [Num (Int 2)]);
    ("TP_LOCALIZACAO_ESC", [Num (Int 1)]);
    ("Q001", [Str "E"]);
    ("Q002", [Str "G"]);
    ("Q006", [Str "F"]);
    ("Q025", [Str "A"]);
    ("NU_NOTA_CH", [Str "abc"]);
    ("TP_PRESENCA_CH", [Num (Int 1)])
  ] |}.

(** One candidate whose scores are written as text. *)
Definition notas_em_texto : DataFrame := {|
  rows := [0]%nat;
  cols := [
    ("TP_FAIXA_ETARIA", [Num (Int 3)]);
    ("TP_ESCOLA", [Num (Int 2)]);
    ("TP_LOCALIZACAO_ESC", [Num (Int 1)]);
    ("Q001", [Str "E"]);
    ("Q002", [Str "G"]);
    ("Q006", [Str "F"]);
    ("Q025", [Str "A"]);
    ("NU_NOTA_MT", [Str "abc"]);
    ("NU_NOTA_CH", [Str "450.5"]);
    ("TP_PRESENCA_CH", [Num (Int 1)])
  ] |}.

(** Two candidates with codes outside the tables and a score that is not
    a number. *)
Definition anomalias : DataFrame := {|
  rows := [0; 1]%nat;
  cols := [
    ("TP_FAIXA_ETARIA", [Num (Int 3); Num (Int 99)]);
    ("TP_ESCOLA", [Num (Int 2); Num (Int 0)]);
    ("TP_LOCALIZACAO_ESC", [Num (Int 1); NaN]);
    ("Q001", [Str "E"; Str "Z"]);
    ("Q002", [Str "G"; Str "*"]);
    ("Q006", [Str "F"; Str "R"]);
    ("Q025", [Str "A"; Str "C"]);
    ("NU_NOTA_MT", [Str "601.2"; Str "abc"]);
    ("NU_NOTA_CH", [Num (Float 550); Num (Float 498.7)]);
    ("TP_PRESENCA_CH", [Num (Int 1); Num (Int 1)])
  ] |}.

(** A table without the Humanities score. *)
Definition sem_nota : DataFrame := {|
  rows := [0]%nat;
  cols := [
    ("TP_FAIXA_ETARIA", [Num (Int 3)]);
    ("TP_ESCOLA", [Num (Int 2)]);
    ("TP_LOCALIZACAO_ESC", [Num (Int 1)]);
    ("Q001", [Str "E"]);
    ("Q002", [Str "G"]);
    ("Q006", [Str "F"]);
    ("Q025", [Str "A"]);
    ("TP_PRESENCA_CH", [Num (Int 1)])
  ] |}.

(** One candidate whose income code is two consecutive letters. *)
Definition codigo_duplo : DataFrame := {|
rows := [0]%nat;
cols := [
  ("TP_FAIXA_ETARIA", [Num (Int 3)]);
  ("TP_ESCOLA", [Num (Int 2)]);
  ("TP_LOCALIZACAO_ESC", [Num (Int 1)]);
  ("Q001", [Str "E"]);
  ("Q002", [Str "G"]);
  ("Q006", [Str "AB"]);
  ("Q025", [Str "A"]);
  ("NU_NOTA_CH", [Num (Float 550)]);
  ("TP_PRESENCA_CH", [Num (Int 1)])
] |}.

(** The table lines 87-189 make of the five candidates. *)
Definition cinco_preparado : DataFrame :=
  default empty_frame ((limpar_e_derivar decimal 0%nat [cinco]).2 !! 3%nat).

(** A table with the income column alone. *)
Definition so_renda : DataFrame := {|
  rows := [0]%nat;
  cols := [("Q006", [Str "F"])] |}.

(** Two candidates: the first was absent and has the income code of two
    consecutive letters; the second was present and has no income code. *)
Definition renda_ausente : DataFrame := {|
  rows := [0; 1]%nat;
  cols := [
    ("TP_FAIXA_ETARIA", [Num (Int 3); Num (Int 4)]);
    ("TP_ESCOLA", [Num (Int 2); Num (Int 3)]);
    ("TP_LOCALIZACAO_ESC", [Num (Int 1); Num (Int 1)]);
    ("Q001", [Str "E"; Str "B"]);
    ("Q002", [Str "G"; Str "C"]);
    ("Q006", [Str "AB"; NaN]);
    ("Q025", [Str "A"; Str "B"]);
    ("NU_NOTA_CH", [Num (Float 550); Num (Float 480)]);
    ("TP_PRESENCA_CH", [Num (Int 0); Num (Int 1)])
  ] |}.

End Exemplos.

(** * Proofs *)

(** ** The heap *)

Lemma bind_run {A B} (m : M A) (k : A -> M B) (h : heap) :
  (m ≫= k) h = match m h with
               | (Ok a, h') => k a h'
               | (Raise e, h') => (Raise e, h')
               end.
Proof. reflexivity. Qed.

Lemma load_run (h : heap) c d : h !! c = Some d -> load c h = (Ok d, h).
Proof. intros Hc. unfold load. now rewrite Hc. Qed.

Lemma getitem_run (h : heap) c d col :
  h !! c = Some d -> getitem c col h = (frame_getitem d col, h).
Proof.
  intros Hc. unfold getitem. now rewrite bind_run, (load_run _ _ _ Hc).
Qed.

Lemma setitem_run (h : heap) c d col s :
  h !! c = Some d -> setitem c col s h = (Ok tt, <[c := frame_setitem d col s]> h).
Proof.
  intros Hc. unfold setitem. now rewrite bind_run, (load_run _ _ _ Hc).
Qed.

Lemma in_columns_run (h : heap) c d col :
  h !! c = Some d -> in_columns col c h = (Ok (bool_decide (col ∈ columns d)), h).
Proof.
  intros Hc. unfold in_columns. now rewrite bind_run, (load_run _ _ _ Hc).
Qed.

Lemma lookup_updated (h : heap) c d d' : h !! c = Some d -> <[c := d']> h !! c = Some d'.
Proof. intros Hc. apply list_lookup_insert_eq. eapply lookup_lt_Some, Hc. Qed.

(** ** Steps in place *)

Lemma runs_as_seq m1 m2 f1 f2 :
  runs_as m1 f1 -> runs_as m2 f2 ->
  runs_as (fun c => m1 c ;; m2 c) (fun d => f1 d ≫= f2).
Proof.
  intros H1 H2 h c d Hc. specialize (H1 h c d Hc).
  destruct (f1 d) as [d1 | e]; simpl.
  - specialize (H2 (<[c := d1]> h) c d1 (lookup_updated _ _ _ _ Hc)).
    destruct (f2 d1) as [d2 | e].
    + rewrite bind_run, H1, H2. now rewrite list_insert_insert_eq.
    + destruct H2 as [d' H2]. exists d'.
      rewrite bind_run, H1, H2. now rewrite list_insert_insert_eq.
  - destruct H1 as [d' H1]. exists d'. now rewrite bind_run, H1.
Qed.

Lemma runs_as_skip : runs_as (fun _ => mret tt) (fun d => Ok d).
Proof. intros h c d Hc. simpl. unfold mret, M_ret. now rewrite list_insert_id. Qed.

Lemma for_run {A} (l : list A) (body : A -> ref -> M unit) g :
  (forall x, runs_as (body x) (fun d => Ok (g d x))) ->
  runs_as (fun c => for_ l (fun x => body x c)) (fun d => Ok (foldl g d l)).
Proof.
  intros Hbody. induction l as [| x l IH].
  - apply runs_as_skip.
  - intros h c d Hc.
    pose proof (runs_as_seq _ _ _ _ (Hbody x) IH h c d Hc) as Hseq.
    simpl in *. exact Hseq.
Qed.

Lemma derivar_coluna_run src dst g :
  runs_as (fun c => s ← getitem c src; setitem c dst (g s)) (derivar_coluna src dst g).
Proof.
  intros h c d Hc. unfold derivar_coluna.
  rewrite bind_run, (getitem_run _ _ _ _ Hc).
  destruct (frame_getitem d src) as [s | e]; simpl.
  - apply setitem_run, Hc.
  - exists d. now rewrite list_insert_id.
Qed.

Lemma col_lookup_columns c l :
  c ∈ map fst l -> exists s, col_lookup c l = Some s.
Proof.
  induction l as [| [k v] l IH]; simpl; intros Hin.
  - now apply elem_of_nil in Hin.
  - destruct (String.eqb_spec k c) as [-> | Hne]; [eauto |].
    apply elem_of_cons in Hin as [-> | Hin]; [congruence | auto].
Qed.

Lemma col_lookup_None c l : c ∉ map fst l -> col_lookup c l = None.
Proof.
  induction l as [| [k v] l IH]; simpl; intros Hin; [reflexivity |].
  apply not_elem_of_cons in Hin as [Hne Hin].
  destruct (String.eqb_spec k c) as [-> | _]; [congruence | auto].
Qed.

Section StepsRun.
Variable py : Lib.

Lemma ajustar_coluna_run col :
  runs_as (fun c =>
             present ← in_columns col c;
             if (present : bool) then
               s ← getitem c col;
               setitem c col (map (to_numeric_coerce py) s)
             else mret tt)
          (fun d => Ok (ajustar_coluna py d col)).
Proof.
  intros h c d Hc. simpl. unfold ajustar_coluna.
  rewrite bind_run, (in_columns_run _ _ _ _ Hc).
  case_bool_decide as Hin.
  - destruct (col_lookup_columns _ _ Hin) as [s Hs].
    rewrite bind_run, (getitem_run _ _ _ _ Hc). unfold frame_getitem.
    rewrite Hs. simpl. apply setitem_run, Hc.
  - unfold mret, M_ret. now rewrite list_insert_id.
Qed.

Lemma ajustar_tipos_run :
  runs_as (ajustar_tipos py) (fun d => Ok (tipos_ajustados py d)).
Proof.
  unfold ajustar_tipos, tipos_ajustados.
  apply (for_run colunas_numericas
           (fun col c =>
              present ← in_columns col c;
              if (present : bool) then
                s ← getitem c col;
                setitem c col (map (to_numeric_coerce py) s)
              else mret tt)
           (ajustar_coluna py)).
  apply ajustar_coluna_run.
Qed.

Lemma criar_variaveis_run : runs_as criar_variaveis variaveis_criadas.
Proof.
  unfold criar_variaveis, variaveis_criadas.
  repeat (apply runs_as_seq; [apply derivar_coluna_run |]).
  apply derivar_coluna_run.
Qed.

Lemma agrupar_renda_run : runs_as (agrupar_renda py) (renda_agrupada py).
Proof.
  intros h c d Hc. unfold agrupar_renda, renda_agrupada.
  rewrite bind_run, (getitem_run _ _ _ _ Hc).
  destruct (frame_getitem d "Q006") as [q | e]; cbn [mbind result_bind];
    [| exists d; now rewrite list_insert_id].
  rewrite bind_run. unfold lift.
  destruct (Series_map_fn indice_do_elemento (map (astype_str_na py) q)) as [i | e];
    cbn [mbind result_bind]; [| exists d; now rewrite list_insert_id].
  rewrite bind_run.
  destruct (pd_cut i bins_faixa_renda labels_faixa_renda) as [f | e];
    cbn [mbind result_bind mret result_ret]; [| exists d; now rewrite list_insert_id].
  apply setitem_run, Hc.
Qed.
End StepsRun.

(** ** The program on the heap computes the tables of the steps *)

Lemma copy_run (h : heap) r d :
  h !! r = Some d -> copy r h = (Ok (length h), h ++ [d]).
Proof. intros Hr. unfold copy. now rewrite bind_run, (load_run _ _ _ Hr). Qed.

Lemma getitem_mask_run (h : heap) r d mask :
  h !! r = Some d ->
  getitem_mask r mask h = (Ok (length h), h ++ [frame_select d mask]).
Proof. intros Hr. unfold getitem_mask. now rewrite bind_run, (load_run _ _ _ Hr). Qed.

Lemma dropna_run (h : heap) r d subset :
  h !! r = Some d ->
  dropna r subset h =
    match frame_dropna d subset with
    | Ok d' => (Ok (length h), h ++ [d'])
    | Raise e => (Raise e, h)
    end.
Proof.
  intros Hr. unfold dropna. rewrite bind_run, (load_run _ _ _ Hr).
  rewrite bind_run. unfold lift. now destruct (frame_dropna d subset).
Qed.

Lemma filtrar_presentes_run (h : heap) r d :
  h !! r = Some d ->
  filtrar_presentes r h =
    match frame_getitem d "TP_PRESENCA_CH" with
    | Raise e => (Raise e, h ++ [d])
    | Ok p =>
        let d2 := frame_select d (Series_eq p (Num (Int 1))) in
        match frame_dropna d2 ["NU_NOTA_CH"] with
        | Raise e => (Raise e, h ++ [d; d2])
        | Ok d3 => (Ok (length h + 2)%nat, h ++ [d; d2; d3])
        end
    end.
Proof.
  intros Hr. unfold filtrar_presentes.
  rewrite bind_run, (copy_run _ _ _ Hr).
  assert (H1 : (h ++ [d]) !! length h = Some d) by now apply list_lookup_middle.
  rewrite bind_run, (getitem_run _ _ _ _ H1).
  destruct (frame_getitem d "TP_PRESENCA_CH") as [p | e]; [| reflexivity].
  rewrite bind_run, (getitem_mask_run _ _ _ _ H1). cbv zeta.
  set (d2 := frame_select d (Series_eq p (Num (Int 1)))).
  assert (H2 : ((h ++ [d]) ++ [d2]) !! length (h ++ [d]) = Some d2)
    by now apply list_lookup_middle.
  rewrite (dropna_run _ _ _ _ H2).
  destruct (frame_dropna d2 ["NU_NOTA_CH"]) as [d3 | e].
  - rewrite !length_app. simpl.
    rewrite <- !app_assoc. simpl. do 2 f_equal. lia.
  - now rewrite <- !app_assoc.
Qed.

Lemma update_last (h : heap) d1 d2 d3 x :
  <[(length h + 2)%nat := x]> (h ++ [d1; d2; d3]) = h ++ [d1; d2; x].
Proof. now rewrite insert_app_r. Qed.

Lemma lookup_last (h : heap) d1 d2 d3 :
  (h ++ [d1; d2; d3]) !! (length h + 2)%nat = Some d3.
Proof. rewrite lookup_app_r by lia. now replace (length h + 2 - length h)%nat with 2%nat by lia. Qed.

Section ProgramRun.
Variable py : Lib.

Lemma limpar_e_derivar_run (h : heap) r d :
  h !! r = Some d ->
  exists t,
    limpar_e_derivar py r h =
      (match derivado py d with
       | Ok _ => Ok (length h + 2)%nat
       | Raise e => Raise e
       end,
       h ++ t) /\
    (forall out, derivado py d = Ok out ->
                 (h ++ t) !! (length h + 2)%nat = Some out).
Proof.
  intros Hr. unfold limpar_e_derivar, derivado, presentes.
  rewrite bind_run, (filtrar_presentes_run _ _ _ Hr).
  destruct (frame_getitem d "TP_PRESENCA_CH") as [p | e];
    cbn [mbind result_bind]; [| exists [d]; split; [reflexivity | discriminate]].
  set (d2 := frame_select d (Series_eq p (Num (Int 1)))). cbv zeta.
  destruct (frame_dropna d2 ["NU_NOTA_CH"]) as [d3 | e];
    cbn [mbind result_bind]; [| exists [d; d2]; split; [reflexivity | discriminate]].
  pose proof (lookup_last h d d2 d3) as H3.
  pose proof (ajustar_tipos_run py _ _ _ H3) as Ha. cbv beta iota in Ha.
  rewrite bind_run, Ha, update_last.
  pose proof (lookup_last h d d2 (tipos_ajustados py d3)) as H4.
  pose proof (criar_variaveis_run _ _ _ H4) as Hv.
  destruct (variaveis_criadas (tipos_ajustados py d3)) as [out | e].
  - rewrite bind_run, Hv, update_last. exists [d; d2; out]. split; [reflexivity |].
    intros out' [= <-]. apply lookup_last.
  - destruct Hv as [d' Hv]. rewrite bind_run, Hv, update_last.
    exists [d; d2; d']. split; [reflexivity | discriminate].
Qed.

(** [pd.cut] is called with six labels for the five intervals of six
    edges: it raises whatever the values are. *)
Lemma pd_cut_faixa_renda (x : list Z) :
  pd_cut x bins_faixa_renda labels_faixa_renda =
    Raise (ValueError "Bin labels must be one fewer than the number of bin edges").
Proof. reflexivity. Qed.

Lemma renda_agrupada_raises d : exists e, renda_agrupada py d = Raise e.
Proof.
  unfold renda_agrupada.
  destruct (frame_getitem d "Q006") as [q | e]; cbn [mbind result_bind]; [| eauto].
  destruct (Series_map_fn indice_do_elemento (map (astype_str_na py) q)) as [i | e];
    cbn [mbind result_bind]; [| eauto].
  rewrite pd_cut_faixa_renda. cbn [mbind result_bind]. eauto.
Qed.

Lemma preparado_raises d : exists e, preparado py d = Raise e.
Proof.
  unfold preparado.
  destruct (derivado py d) as [out | e]; cbn [mbind result_bind]; [| eauto].
  apply renda_agrupada_raises.
Qed.

Lemma preparar_dados_run (h : heap) r d :
  h !! r = Some d ->
  exists e t, preparar_dados py r h = (Raise e, h ++ t) /\ preparado py d = Raise e.
Proof.
  intros Hr. unfold preparar_dados, preparado.
  destruct (limpar_e_derivar_run h r d Hr) as (t & Hrun & Hout).
  rewrite bind_run, Hrun.
  destruct (derivado py d) as [out | e]; cbn [mbind result_bind].
  - specialize (Hout out eq_refl).
    pose proof (agrupar_renda_run py _ _ _ Hout) as Hg.
    destruct (renda_agrupada_raises out) as [e He]. rewrite He in Hg |- *.
    destruct Hg as [d' Hg]. rewrite bind_run, Hg, insert_app_r.
    exists e, (<[2%nat := d']> t). split; reflexivity.
  - exists e, t. split; reflexivity.
Qed.
End ProgramRun.

(** ** Selections of rows *)

Lemma select_length_le {A} (mask : list bool) (l : list A) :
  (length (select mask l) <= length l)%nat.
Proof.
  revert l. induction mask as [| b mask IH]; intros [| x l]; simpl; try lia.
  specialize (IH l). destruct b; simpl; lia.
Qed.

Lemma Forall_select {A} (P : A -> Prop) (mask : list bool) (l : list A) :
  Forall P l -> Forall P (select mask l).
Proof.
  intros Hl. revert mask. induction Hl as [| x l Hx Hl IH]; intros [| b mask]; simpl;
    try constructor.
  destruct b; [constructor |]; auto.
Qed.

(** A mask computed from the list it selects in, cut at any length, keeps
    only elements that pass the test. *)
Lemma Forall_select_test {A} (f : A -> bool) (n : nat) (l : list A) :
  Forall (fun x => f x = true) (select (take n (map f l)) l).
Proof.
  revert n. induction l as [| x l IH]; intros [| n]; simpl; try constructor.
  destruct (f x) eqn:Hx; [constructor |]; auto.
Qed.

Lemma select_map {A B} (g : A -> B) (mask : list bool) (l : list A) :
  select mask (map g l) = map g (select mask l).
Proof.
  revert l. induction mask as [| b mask IH]; intros [| x l]; simpl; try reflexivity.
  destruct b; simpl; now rewrite IH.
Qed.

Lemma zip_with_andb_true (m : list bool) (n : nat) :
  zip_with andb m (replicate n true) = take n m.
Proof.
  revert n. induction m as [| b m IH]; intros [| n]; simpl; try reflexivity.
  now rewrite IH, andb_true_r.
Qed.

(** ** Columns *)

Lemma col_lookup_assign c c' s l :
  col_lookup c (col_assign c' s l) = if decide (c = c') then Some s else col_lookup c l.
Proof.
  induction l as [| [k v] l IH]; cbn [col_lookup col_assign].
  - destruct (String.eqb_spec c' c) as [-> | Hne]; case_decide; congruence.
  - destruct (String.eqb_spec k c') as [-> | Hne]; cbn [col_lookup].
    + destruct (String.eqb_spec c' c) as [-> | Hne]; case_decide; congruence.
    + destruct (String.eqb_spec k c) as [-> | Hne']; [| exact IH].
      case_decide; congruence.
Qed.

Lemma columns_assign c s l :
  map fst (col_assign c s l) = if decide (c ∈ map fst l) then map fst l else map fst l ++ [c].
Proof.
  induction l as [| [k v] l IH]; cbn [col_assign map fst].
  - case_decide as Hin; [now apply elem_of_nil in Hin | reflexivity].
  - destruct (String.eqb_spec k c) as [-> | Hne]; cbn [map fst].
    + rewrite decide_True by apply list_elem_of_here. reflexivity.
    + rewrite IH. destruct (decide (c ∈ map fst l)) as [Hin | Hnin].
      * rewrite decide_True by now apply list_elem_of_further. reflexivity.
      * rewrite decide_False; [reflexivity |].
        intros [-> | Hin]%elem_of_cons; congruence.
Qed.

Lemma col_lookup_select c mask l :
  col_lookup c (map (fun kv => (fst kv, select mask (snd kv))) l)
  = select mask <$> col_lookup c l.
Proof.
  induction l as [| [k v] l IH]; simpl; [reflexivity |].
  destruct (String.eqb k c); [reflexivity | exact IH].
Qed.

Lemma col_lookup_frame_select c d mask :
  col_lookup c (cols (frame_select d mask)) = select mask <$> col_lookup c (cols d).
Proof. apply col_lookup_select. Qed.

Lemma columns_select d mask : columns (frame_select d mask) = columns d.
Proof.
  unfold columns, frame_select. simpl. rewrite map_map. reflexivity.
Qed.

Lemma elem_of_columns c d : c ∈ columns d <-> is_Some (col_lookup c (cols d)).
Proof.
  split.
  - intros Hin. destruct (col_lookup_columns _ _ Hin) as [s Hs]. rewrite Hs. eauto.
  - intros [s Hs]. destruct (decide (c ∈ columns d)) as [Hin | Hnin]; [exact Hin |].
    rewrite (col_lookup_None _ _ Hnin) in Hs. discriminate.
Qed.

Lemma frame_getitem_Ok d c s :
  frame_getitem d c = Ok s <-> col_lookup c (cols d) = Some s.
Proof.
  unfold frame_getitem. destruct (col_lookup c (cols d)); split; congruence.
Qed.

Lemma frame_getitem_Raise d c e :
  frame_getitem d c = Raise e -> e = KeyError [c] /\ c ∉ columns d.
Proof.
  unfold frame_getitem. destruct (col_lookup c (cols d)) eqn:Hc; intros [= <-].
  split; [reflexivity |]. rewrite elem_of_columns, Hc. now intros [? [=]].
Qed.

(** [dropna] on one column. *)
Lemma frame_dropna_one d c :
  frame_dropna d [c] =
    if decide (c ∈ columns d)
    then Ok (frame_select d (complete_rows d [c]))
    else Raise (KeyError [c]).
Proof.
  unfold frame_dropna. rewrite filter_cons, filter_nil.
  destruct (decide (c ∈ columns d)) as [Hin | Hnin].
  - rewrite decide_False; [reflexivity | tauto].
  - rewrite decide_True by assumption. reflexivity.
Qed.

Lemma complete_rows_one d c :
  complete_rows d [c] =
    take (nrows d) (map notna (default [] (col_lookup c (cols d)))).
Proof. unfold complete_rows. simpl. apply zip_with_andb_true. Qed.

(** ** The rows kept *)

Lemma manter_length_le {A} d (l : list A) : (length (manter d l) <= length l)%nat.
Proof.
  unfold manter. etransitivity; apply select_length_le.
Qed.

Lemma manter_map {A B} (g : A -> B) d (l : list A) :
  manter d (map g l) = map g (manter d l).
Proof. unfold manter. now rewrite !select_map. Qed.

Lemma manter_presentes d p :
  col_lookup "TP_PRESENCA_CH" (cols d) = Some p ->
  Forall (fun c => py_eq c (Num (Int 1)) = true) (manter d p).
Proof.
  intros Hp. unfold manter. rewrite Hp. change (default [] (Some p)) with p.
  apply Forall_select. unfold Series_eq.
  rewrite <- (take_ge (map _ p) (length (map (fun c => py_eq c (Num (Int 1))) p))) by lia.
  apply (Forall_select_test (fun c => py_eq c (Num (Int 1)))).
Qed.

Lemma manter_com_nota d s :
  col_lookup "NU_NOTA_CH" (cols d) = Some s ->
  Forall (fun c => notna c = true) (manter d s).
Proof.
  intros Hs. unfold manter. rewrite complete_rows_one.
  rewrite col_lookup_frame_select, Hs.
  change (default [] (?f <$> Some s)) with (f s).
  apply Forall_select_test.
Qed.

Lemma select_length_eq {A B} (mask : list bool) (s : list A) (l : list B) :
  length s = length l -> length (select mask s) = length (select mask l).
Proof.
  revert s l. induction mask as [| b mask IH]; intros [| x s] [| y l]; cbn [select length];
    try reflexivity; try discriminate.
  intros [= Hlen]. destruct b; cbn [length]; auto.
Qed.

Lemma select_select {A B} (f : B -> bool) (mask : list bool) (s : list B) (l : list A) :
  length s = length l ->
  select (map f (select mask s)) (select mask l) = select (zip_with andb mask (map f s)) l.
Proof.
  revert s l. induction mask as [| b mask IH]; intros [| x s] [| y l];
    cbn [select map zip_with length]; try reflexivity; try discriminate.
  intros [= Hlen]. destruct b; cbn [select map andb]; rewrite IH by assumption; reflexivity.
Qed.

(** In a table whose columns have one cell per row, the rows kept are the
    rows with the presence code 1 and a score. *)
Lemma manter_spec {A} d p s (l : list A) :
  col_lookup "TP_PRESENCA_CH" (cols d) = Some p ->
  col_lookup "NU_NOTA_CH" (cols d) = Some s ->
  length s = nrows d -> length l = nrows d ->
  manter d l = select (zip_with andb (Series_eq p (Num (Int 1))) (map notna s)) l.
Proof.
  intros Hp Hs Hls Hll. unfold manter. rewrite Hp. change (default [] (Some p)) with p.
  rewrite complete_rows_one, col_lookup_frame_select, Hs.
  change (default [] (?f <$> Some s)) with (f s).
  rewrite take_ge.
  - apply select_select. congruence.
  - rewrite length_map. unfold nrows, frame_select. cbn [rows].
    rewrite (select_length_eq _ s (rows d)); [lia |]. exact Hls.
Qed.

Lemma presentes_inv d d3 :
  presentes d = Ok d3 ->
  "TP_PRESENCA_CH" ∈ columns d /\ "NU_NOTA_CH" ∈ columns d /\
  rows d3 = manter d (rows d) /\ columns d3 = columns d /\
  forall c, col_lookup c (cols d3) = manter d <$> col_lookup c (cols d).
Proof.
  unfold presentes.
  destruct (frame_getitem d "TP_PRESENCA_CH") as [p | e] eqn:Hp; [| discriminate].
  cbn [mbind result_bind]. rewrite frame_dropna_one, columns_select.
  destruct (decide ("NU_NOTA_CH" ∈ columns d)) as [Hn | Hn]; [| discriminate].
  intros [= <-]. apply frame_getitem_Ok in Hp.
  split; [apply elem_of_columns; rewrite Hp; eauto |].
  split; [exact Hn |].
  unfold manter. rewrite Hp. change (default [] (Some p)) with p.
  split; [reflexivity |]. split; [now rewrite !columns_select |].
  intros c. rewrite !col_lookup_frame_select.
  now destruct (col_lookup c (cols d)).
Qed.

Lemma presentes_Ok d :
  "TP_PRESENCA_CH" ∈ columns d -> "NU_NOTA_CH" ∈ columns d ->
  exists d3, presentes d = Ok d3.
Proof.
  intros Hp Hn. unfold presentes, frame_getitem.
  destruct (col_lookup_columns _ _ Hp) as [p ->]. cbn [mbind result_bind].
  rewrite frame_dropna_one, columns_select, decide_True by assumption. eauto.
Qed.

Lemma presentes_Raise d e :
  presentes d = Raise e ->
  exists c, e = KeyError [c] /\ c ∈ colunas_obrigatorias /\ c ∉ columns d.
Proof.
  unfold presentes.
  destruct (frame_getitem d "TP_PRESENCA_CH") as [p | e'] eqn:Hp; cbn [mbind result_bind].
  - rewrite frame_dropna_one, columns_select.
    destruct (decide ("NU_NOTA_CH" ∈ columns d)) as [Hn | Hn]; [discriminate |].
    intros [= <-]. exists "NU_NOTA_CH". split; [reflexivity |].
    split; [| exact Hn]. unfold colunas_obrigatorias. set_solver.
  - intros [= <-]. apply frame_getitem_Raise in Hp as [-> Hp].
    exists "TP_PRESENCA_CH". split; [reflexivity |].
    split; [| exact Hp]. unfold colunas_obrigatorias. set_solver.
Qed.

(** ** The coercion of the score columns *)

Section Coercion.
Variable py : Lib.

Lemma ajustar_coluna_lookup d c c' :
  col_lookup c (cols (ajustar_coluna py d c')) =
    if decide (c = c')
    then map (to_numeric_coerce py) <$> col_lookup c (cols d)
    else col_lookup c (cols d).
Proof.
  unfold ajustar_coluna. case_bool_decide as Hin.
  - cbn [frame_setitem cols]. rewrite col_lookup_assign.
    case_decide as Hc; [subst c' | reflexivity].
    now destruct (col_lookup_columns _ _ Hin) as [s ->].
  - case_decide as Hc; [subst c' | reflexivity].
    now rewrite (col_lookup_None _ _ Hin).
Qed.

Lemma ajustar_coluna_frame d c :
  rows (ajustar_coluna py d c) = rows d /\
  columns (ajustar_coluna py d c) = columns d.
Proof.
  unfold ajustar_coluna. case_bool_decide as Hin; [| split; reflexivity].
  split; [reflexivity |]. unfold columns. cbn [frame_setitem cols].
  rewrite columns_assign. now rewrite decide_True.
Qed.

Lemma foldl_ajustar_lookup (l : list string) :
  NoDup l -> forall d c,
  col_lookup c (cols (foldl (ajustar_coluna py) d l)) =
    if decide (c ∈ l)
    then map (to_numeric_coerce py) <$> col_lookup c (cols d)
    else col_lookup c (cols d).
Proof.
  induction 1 as [| x l Hx Hl IH]; intros d c; cbn [foldl].
  - rewrite decide_False; [reflexivity | apply not_elem_of_nil].
  - rewrite IH, ajustar_coluna_lookup.
    destruct (decide (c = x)) as [-> | Hne].
    + rewrite (decide_False (P := x ∈ l)) by assumption.
      rewrite decide_True by apply list_elem_of_here. reflexivity.
    + destruct (decide (c ∈ l)) as [Hin | Hnin].
      * rewrite decide_True by now apply list_elem_of_further. reflexivity.
      * rewrite decide_False; [reflexivity |].
        intros [-> | Hin]%elem_of_cons; congruence.
Qed.

Lemma foldl_ajustar_frame (l : list string) d :
  rows (foldl (ajustar_coluna py) d l) = rows d /\
  columns (foldl (ajustar_coluna py) d l) = columns d.
Proof.
  revert d. induction l as [| x l IH]; intros d; cbn [foldl]; [split; reflexivity |].
  destruct (IH (ajustar_coluna py d x)) as [-> ->]. apply ajustar_coluna_frame.
Qed.

Lemma NoDup_colunas_numericas : NoDup colunas_numericas.
Proof. compute_done. Qed.

Lemma tipos_ajustados_lookup d c :
  col_lookup c (cols (tipos_ajustados py d)) =
    if decide (c ∈ colunas_numericas)
    then map (to_numeric_coerce py) <$> col_lookup c (cols d)
    else col_lookup c (cols d).
Proof. apply foldl_ajustar_lookup, NoDup_colunas_numericas. Qed.

Lemma tipos_ajustados_frame d :
  rows (tipos_ajustados py d) = rows d /\
  columns (tipos_ajustados py d) = columns d.
Proof. apply foldl_ajustar_frame. Qed.
End Coercion.

(** ** The derived columns *)

Lemma derivar_coluna_Ok src dst g d d' :
  derivar_coluna src dst g d = Ok d' ->
  exists s, col_lookup src (cols d) = Some s /\ d' = frame_setitem d dst (g s).
Proof.
  unfold derivar_coluna.
  destruct (frame_getitem d src) as [s | e] eqn:Hs; [| discriminate].
  intros [= <-]. apply frame_getitem_Ok in Hs. eauto.
Qed.

Lemma columns_setitem_mono d c s x : x ∈ columns d -> x ∈ columns (frame_setitem d c s).
Proof.
  unfold columns. cbn [frame_setitem cols]. rewrite columns_assign.
  case_decide; [auto |]. intros Hx. apply elem_of_app. now left.
Qed.

Lemma aplicar_rows specs d out : aplicar specs d = Ok out -> rows out = rows d.
Proof.
  revert d. induction specs as [| sp specs IH]; intros d; cbn [aplicar].
  - now intros [= <-].
  - destruct (derivar_coluna (origem sp) (destino sp) sp.2 d) as [d' |] eqn:Hd;
      [| discriminate].
    cbn [mbind result_bind]. intros Hout. rewrite (IH _ Hout).
    apply derivar_coluna_Ok in Hd as (s & _ & ->). reflexivity.
Qed.

Lemma aplicar_lookup specs d out c :
  aplicar specs d = Ok out -> c ∉ map destino specs ->
  col_lookup c (cols out) = col_lookup c (cols d).
Proof.
  revert d. induction specs as [| sp specs IH]; intros d; cbn [aplicar map].
  - now intros [= <-].
  - destruct (derivar_coluna (origem sp) (destino sp) sp.2 d) as [d' |] eqn:Hd;
      [| discriminate].
    cbn [mbind result_bind]. intros Hout [Hne Hnin]%not_elem_of_cons.
    rewrite (IH _ Hout Hnin).
    apply derivar_coluna_Ok in Hd as (s & _ & ->).
    cbn [frame_setitem cols]. rewrite col_lookup_assign. now rewrite decide_False.
Qed.

Lemma aplicar_columns specs d out :
  aplicar specs d = Ok out -> NoDup (map destino specs) ->
  (forall c, c ∈ map destino specs -> c ∉ columns d) ->
  columns out = columns d ++ map destino specs.
Proof.
  revert d. induction specs as [| sp specs IH]; intros d; cbn [aplicar map].
  - intros [= <-] _ _. now rewrite app_nil_r.
  - destruct (derivar_coluna (origem sp) (destino sp) sp.2 d) as [d' |] eqn:Hd;
      [| discriminate].
    cbn [mbind result_bind]. intros Hout [Hsp Hnd]%NoDup_cons Hfresh.
    apply derivar_coluna_Ok in Hd as (s & _ & ->).
    assert (Hcols : columns (frame_setitem d (destino sp) (sp.2 s))
                    = columns d ++ [destino sp]).
    { unfold columns. cbn [frame_setitem cols]. rewrite columns_assign.
      rewrite decide_False; [reflexivity |]. apply Hfresh, list_elem_of_here. }
    rewrite (IH _ Hout Hnd), Hcols.
    + now rewrite <- app_assoc.
    + intros c Hc. rewrite Hcols. apply not_elem_of_app. split.
      * apply Hfresh. now apply list_elem_of_further.
      * intros ->%list_elem_of_singleton. contradiction.
Qed.

Lemma aplicar_Ok specs d :
  (forall c, c ∈ map origem specs -> c ∈ columns d) ->
  exists out, aplicar specs d = Ok out.
Proof.
  revert d. induction specs as [| sp specs IH]; intros d Hsrc; cbn [aplicar]; [eauto |].
  unfold derivar_coluna, frame_getitem.
  destruct (col_lookup_columns (origem sp) (cols d)) as [s ->].
  { apply Hsrc, list_elem_of_here. }
  cbn [mbind result_bind mret result_ret]. apply IH.
  intros c Hc. apply columns_setitem_mono, Hsrc. now apply list_elem_of_further.
Qed.

Lemma aplicar_Raise specs d e :
  aplicar specs d = Raise e ->
  exists c, e = KeyError [c] /\ c ∈ map origem specs /\ c ∉ columns d.
Proof.
  revert d. induction specs as [| sp specs IH]; intros d; cbn [aplicar map];
    [discriminate |].
  unfold derivar_coluna.
  destruct (frame_getitem d (origem sp)) as [s | e'] eqn:Hs;
    cbn [mbind result_bind mret result_ret].
  - intros (c & -> & Hc & Hnin)%IH. exists c. split; [reflexivity |].
    split; [now apply list_elem_of_further |].
    intros Hin. apply Hnin. now apply columns_setitem_mono.
  - intros [= <-]. apply frame_getitem_Raise in Hs as [-> Hs].
    exists (origem sp). split; [reflexivity |]. split; [apply list_elem_of_here | exact Hs].
Qed.

Lemma variaveis_criadas_aplicar d : variaveis_criadas d = aplicar derivacoes d.
Proof.
  unfold variaveis_criadas, derivacoes. cbn [aplicar origem destino fst snd].
  repeat match goal with
         | |- context [derivar_coluna ?a ?b ?g ?x ≫= _] =>
             destruct (derivar_coluna a b g x); cbn [mbind result_bind]; [| reflexivity]
         end.
  reflexivity.
Qed.

Lemma aplicar_destino specs d out :
  aplicar specs d = Ok out -> NoDup (map destino specs) ->
  (forall c, c ∈ map origem specs -> c ∉ map destino specs) ->
  forall sp, sp ∈ specs ->
  exists s, col_lookup (origem sp) (cols d) = Some s /\
            col_lookup (destino sp) (cols out) = Some (sp.2 s).
Proof.
  revert d. induction specs as [| sp0 specs IH]; intros d; cbn [aplicar map].
  - intros _ _ _ sp Hsp. now apply elem_of_nil in Hsp.
  - destruct (derivar_coluna (origem sp0) (destino sp0) sp0.2 d) as [d' |] eqn:Hd;
      [| discriminate].
    cbn [mbind result_bind]. intros Hout [Hsp0 Hnd]%NoDup_cons Hsrc sp Hsp.
    apply derivar_coluna_Ok in Hd as (s0 & Hs0 & ->).
    apply elem_of_cons in Hsp as [-> | Hsp].
    + exists s0. split; [exact Hs0 |].
      rewrite (aplicar_lookup _ _ _ _ Hout Hsp0).
      cbn [frame_setitem cols]. rewrite col_lookup_assign. now rewrite decide_True.
    + destruct (IH _ Hout Hnd) with (sp := sp) as (s & Hs & Hdst); [| exact Hsp |].
      { intros c Hc Hc'. apply (Hsrc c); now apply list_elem_of_further. }
      exists s. split; [| exact Hdst].
      revert Hs. cbn [frame_setitem cols]. rewrite col_lookup_assign.
      rewrite decide_False; [auto |].
      intros Heq. apply (Hsrc (origem sp)).
      * apply list_elem_of_further. now apply (list_elem_of_fmap_2 origem).
      * rewrite Heq. apply list_elem_of_here.
Qed.

(** The first element on which the function raises ends the call with its
    exception. *)
Lemma Series_map_fn_first {A B} (f : A -> result B) antes x depois e :
  Forall (fun a => exists y, f a = Ok y) antes -> f x = Raise e ->
  Series_map_fn f (antes ++ x :: depois) = Raise e.
Proof.
  unfold Series_map_fn. intros Hantes Hx.
  induction Hantes as [| a antes [y Hy] _ IH]; cbn [app mapM].
  - now rewrite Hx.
  - rewrite Hy. cbn [mbind result_bind]. now rewrite IH.
Qed.

Lemma Series_map_fn_Ok {A B} (f : A -> result B) (l : list A) :
  Forall (fun x => exists y, f x = Ok y) l -> exists ys, Series_map_fn f l = Ok ys.
Proof.
  unfold Series_map_fn. induction 1 as [| x l [y Hy] _ [ys IH]]; cbn [mapM]; [eauto |].
  rewrite Hy. cbn [mbind result_bind]. rewrite IH. cbn [mbind result_bind]. eauto.
Qed.

(** A string of one character gets an index: the lambda of line 193 raises
    only for longer strings. *)
Lemma indice_faixa_renda_um_caractere (a : ascii) :
  exists i, indice_faixa_renda (String a EmptyString) = Ok i.
Proof.
  destruct a as [[] [] [] [] [] [] [] []]; vm_compute; eauto.
Qed.

(** ** The letters in the string with spaces *)

Lemma substring_length_le (n m : nat) (s : string) :
  (String.length (substring n m s) <= String.length s)%nat.
Proof.
  revert n m. induction s as [| a s IH]; intros [| n] [| m]; cbn [substring String.length];
    try lia.
  - specialize (IH 0%nat m). lia.
  - specialize (IH n 0%nat). lia.
  - specialize (IH n (S m)). lia.
Qed.

Lemma substring_beyond (n m : nat) (s : string) :
  (String.length s <= n)%nat -> substring n m s = EmptyString.
Proof.
  revert n m. induction s as [| a s IH]; intros [| n] [| m]; cbn [substring String.length];
    try reflexivity; try lia; intros Hn; apply IH; lia.
Qed.

(** No two or more consecutive letters occur in the string with spaces. *)
Lemma sem_letras_seguidas (m k : nat) :
  (m < 18)%nat -> (2 <= k)%nat -> (k < 18)%nat ->
  String.length (substring m k "ABCDEFGHIJKLMNOPQ") = k ->
  String.index 0 (substring m k "ABCDEFGHIJKLMNOPQ") "A B C D E F G H I J K L M N O P Q" = None.
Proof.
  intros Hm Hk2 Hk Hlen.
  assert (Hall : forallb (fun m => forallb (fun k =>
            let x := substring m k "ABCDEFGHIJKLMNOPQ" in
            negb (String.length x =? k)%nat || (k <? 2)%nat ||
            match String.index 0 x "A B C D E F G H I J K L M N O P Q" with
            | None => true
            | Some _ => false
            end) (seq 0 18)) (seq 0 18) = true) by (vm_compute; reflexivity).
  rewrite forallb_forall in Hall. specialize (Hall m).
  rewrite forallb_forall in Hall.
  assert (Hin : forall j, (j < 18)%nat -> In j (seq 0 18)) by (intros j Hj; apply in_seq; lia).
  specialize (Hall (Hin m Hm) k (Hin k Hk)). cbv zeta in Hall.
  rewrite Hlen, Nat.eqb_refl in Hall. cbn [negb orb] in Hall.
  destruct (Nat.ltb_spec k 2) as [Hlt | _]; [lia |]. cbn [orb] in Hall.
  now destruct (String.index 0 _ _).
Qed.

(** A string of two or more characters that occurs in the seventeen letters
    does not occur in the string with spaces. *)
Lemma letras_seguidas_index (x : string) :
  py_in x "ABCDEFGHIJKLMNOPQ" = true -> (2 <= String.length x)%nat ->
  String.index 0 x "A B C D E F G H I J K L M N O P Q" = None.
Proof.
  unfold py_in. intros Hin Hlen.
  destruct (String.index 0 x "ABCDEFGHIJKLMNOPQ") as [m |] eqn:Hm; [| discriminate].
  apply index_correct1 in Hm.
  pose proof (substring_length_le m (String.length x) "ABCDEFGHIJKLMNOPQ") as Hle.
  rewrite Hm in Hle. change (String.length "ABCDEFGHIJKLMNOPQ") with 17%nat in Hle.
  destruct (Nat.lt_ge_cases m 18) as [Hlt | Hge].
  - rewrite <- Hm. apply sem_letras_seguidas; try lia. now rewrite Hm.
  - rewrite substring_beyond in Hm by (cbn; lia). subst x. cbn in Hlen. lia.
Qed.

(** The cells the lambda of line 193 gives an index, and the exception it
    raises on the others. *)
Lemma tem_indice_Ok py c :
  tem_indice py c = true -> exists i, indice_do_elemento (astype_str_na py c) = Ok i.
Proof.
  unfold tem_indice. destruct (astype_str_na py c) as [x |]; [| discriminate].
  cbn [indice_do_elemento]. unfold indice_faixa_renda.
  destruct (py_in x "ABCDEFGHIJKLMNOPQ") eqn:Hin; cbn [negb orb]; [| eauto].
  intros Hlen%Nat.leb_le. destruct x as [| a [| b x]].
  - vm_compute. eauto.
  - pose proof (indice_faixa_renda_um_caractere a) as Hi.
    unfold indice_faixa_renda in Hi. now rewrite Hin in Hi.
  - cbn [String.length] in Hlen. lia.
Qed.

Lemma tem_indice_Raise py c :
  tem_indice py c = false ->
  indice_do_elemento (astype_str_na py c) =
    Raise (match astype_str_na py c with
           | Some _ => ValueError "substring not found"
           | None => TypeError "'in <string>' requires string as left operand, not float"
           end).
Proof.
  unfold tem_indice. destruct (astype_str_na py c) as [x |]; [| reflexivity].
  cbn [indice_do_elemento]. unfold indice_faixa_renda, py_index.
  destruct (py_in x "ABCDEFGHIJKLMNOPQ") eqn:Hin; cbn [negb orb]; [| discriminate].
  intros Hlen%Nat.leb_gt. now rewrite letras_seguidas_index by (assumption || lia).
Qed.

(** ** The table of lines 87-189 *)

Section Derivado.
Variable py : Lib.

Lemma derivado_rows d out : derivado py d = Ok out -> rows out = manter d (rows d).
Proof.
  unfold derivado. destruct (presentes d) as [d3 |] eqn:Hd3; [| discriminate].
  cbn [mbind result_bind]. rewrite variaveis_criadas_aplicar. intros Hout.
  rewrite (aplicar_rows _ _ _ Hout).
  destruct (tipos_ajustados_frame py d3) as [-> _].
  now apply presentes_inv in Hd3 as (_ & _ & -> & _).
Qed.

Lemma derivado_lookup d out c :
  derivado py d = Ok out -> c ∉ colunas_derivadas ->
  col_lookup c (cols out) =
    if decide (c ∈ colunas_numericas)
    then map (to_numeric_coerce py) <$> (manter d <$> col_lookup c (cols d))
    else manter d <$> col_lookup c (cols d).
Proof.
  unfold derivado. destruct (presentes d) as [d3 |] eqn:Hd3; [| discriminate].
  cbn [mbind result_bind]. rewrite variaveis_criadas_aplicar. intros Hout Hc.
  rewrite (aplicar_lookup _ _ _ _ Hout Hc), tipos_ajustados_lookup.
  apply presentes_inv in Hd3 as (_ & _ & _ & _ & Hl). now rewrite Hl.
Qed.

Lemma derivado_columns d out :
  derivado py d = Ok out ->
  (forall c, c ∈ colunas_derivadas -> c ∉ columns d) ->
  columns out = columns d ++ colunas_derivadas.
Proof.
  unfold derivado. destruct (presentes d) as [d3 |] eqn:Hd3; [| discriminate].
  cbn [mbind result_bind]. rewrite variaveis_criadas_aplicar. intros Hout Hfresh.
  destruct (tipos_ajustados_frame py d3) as [_ Hcols].
  apply presentes_inv in Hd3 as (_ & _ & _ & Hcols3 & _).
  rewrite (aplicar_columns _ _ _ Hout), Hcols, Hcols3; [reflexivity | compute_done |].
  intros c Hc. rewrite Hcols, Hcols3. now apply Hfresh.
Qed.

(** The derived columns: the labels of the codes of the rows kept. *)
Lemma derivado_destino d out sp :
  derivado py d = Ok out -> sp ∈ derivacoes ->
  exists s, col_lookup (origem sp) (cols d) = Some s /\
            col_lookup (destino sp) (cols out) = Some (sp.2 (manter d s)).
Proof.
  unfold derivado. destruct (presentes d) as [d3 |] eqn:Hd3; [| discriminate].
  cbn [mbind result_bind]. rewrite variaveis_criadas_aplicar. intros Hout Hsp.
  assert (Hnd : NoDup (map destino derivacoes)) by compute_done.
  assert (Hsrc : forall c, c ∈ map origem derivacoes -> c ∉ map destino derivacoes).
  { apply Forall_forall. compute_done. }
  destruct (aplicar_destino _ _ _ Hout Hnd Hsrc sp Hsp) as (s & Hs & Hdst).
  apply presentes_inv in Hd3 as (_ & _ & _ & _ & Hl).
  rewrite tipos_ajustados_lookup, Hl in Hs.
  rewrite decide_False in Hs.
  - destruct (col_lookup (origem sp) (cols d)) as [s0 |]; [| discriminate].
    injection Hs as <-. eauto.
  - clear Hs Hdst. revert sp Hsp. apply Forall_forall. compute_done.
Qed.

Lemma derivado_Ok d :
  (forall c, c ∈ colunas_obrigatorias -> c ∈ columns d) ->
  exists out, derivado py d = Ok out.
Proof.
  intros Hreq. unfold derivado.
  destruct (presentes_Ok d) as [d3 Hd3]; [apply Hreq; compute_done .. |].
  rewrite Hd3. cbn [mbind result_bind]. rewrite variaveis_criadas_aplicar.
  apply aplicar_Ok. intros c Hc.
  destruct (tipos_ajustados_frame py d3) as [_ ->].
  apply presentes_inv in Hd3 as (_ & _ & _ & -> & _).
  apply Hreq. revert c Hc. apply Forall_forall. compute_done.
Qed.

Lemma derivado_Raise d e :
  derivado py d = Raise e ->
  exists c, e = KeyError [c] /\ c ∈ colunas_obrigatorias /\ c ∉ columns d.
Proof.
  unfold derivado. destruct (presentes d) as [d3 | e'] eqn:Hd3; cbn [mbind result_bind].
  - rewrite variaveis_criadas_aplicar. intros (c & -> & Hc & Hnin)%aplicar_Raise.
    exists c. split; [reflexivity |].
    destruct (tipos_ajustados_frame py d3) as [_ Hcols]. rewrite Hcols in Hnin.
    apply presentes_inv in Hd3 as (_ & _ & _ & Hcols3 & _). rewrite Hcols3 in Hnin.
    split; [| exact Hnin]. clear Hnin. revert c Hc. apply Forall_forall. compute_done.
  - intros [= <-]. now apply presentes_Raise.
Qed.

(** With the income column in the table, lines 192-196 raise: the
    [ValueError] of [pd.cut] when the lambda gives every income cell an
    index, and otherwise what the lambda raises on the first cell it gives
    none. *)
Lemma renda_agrupada_cut d q :
  col_lookup "Q006" (cols d) = Some q ->
  forallb (tem_indice py) q = true ->
  renda_agrupada py d =
    Raise (ValueError "Bin labels must be one fewer than the number of bin edges").
Proof.
  intros Hq Hall. unfold renda_agrupada, frame_getitem. rewrite Hq. cbn [mbind result_bind].
  destruct (Series_map_fn_Ok indice_do_elemento (map (astype_str_na py) q)) as [ys ->].
  - apply Forall_map. apply Forall_forall. intros c Hc.
    apply tem_indice_Ok. rewrite forallb_forall in Hall. apply Hall.
    now apply list_elem_of_In.
  - cbn [mbind result_bind]. now rewrite pd_cut_faixa_renda.
Qed.

Lemma renda_agrupada_lambda d antes c depois :
  col_lookup "Q006" (cols d) = Some (antes ++ c :: depois) ->
  forallb (tem_indice py) antes = true ->
  tem_indice py c = false ->
  renda_agrupada py d =
    Raise (match astype_str_na py c with
           | Some _ => ValueError "substring not found"
           | None => TypeError "'in <string>' requires string as left operand, not float"
           end).
Proof.
  intros Hq Hantes Hc. unfold renda_agrupada, frame_getitem. rewrite Hq.
  cbn [mbind result_bind]. rewrite map_app. cbn [map].
  erewrite (Series_map_fn_first indice_do_elemento (map (astype_str_na py) antes) _
              (map (astype_str_na py) depois));
    [reflexivity | | now apply tem_indice_Raise].
  apply Forall_map. apply Forall_forall. intros x Hx.
  apply tem_indice_Ok. rewrite forallb_forall in Hantes. apply Hantes.
  now apply list_elem_of_In.
Qed.
End Derivado.

Lemma derivado_Ok_columns py d out c :
  derivado py d = Ok out -> c ∈ colunas_obrigatorias -> c ∈ columns d.
Proof.
  intros Hd Hc.
  change colunas_obrigatorias
    with ("TP_PRESENCA_CH" :: "NU_NOTA_CH" :: (origem <$> derivacoes)) in Hc.
  apply elem_of_cons in Hc as [-> | Hc]; [| apply elem_of_cons in Hc as [-> | Hc]].
  - unfold derivado in Hd. destruct (presentes d) as [d3 |] eqn:Hd3; [| discriminate].
    now apply presentes_inv in Hd3 as (H1 & _).
  - unfold derivado in Hd. destruct (presentes d) as [d3 |] eqn:Hd3; [| discriminate].
    now apply presentes_inv in Hd3 as (_ & H2 & _).
  - apply list_elem_of_fmap in Hc as (sp & -> & Hsp).
    destruct (derivado_destino py d out sp Hd Hsp) as (s & Hs & _).
    apply elem_of_columns. rewrite Hs. eauto.
Qed.

(** A table that lacks one of the columns the call reads makes it raise
    [KeyError] for a missing column, before line 192 is reached. *)
Lemma missing_column_KeyError py (h : heap) r df c :
  h !! r = Some df -> c ∈ colunas_obrigatorias -> c ∉ columns df ->
  exists c' h', c' ∈ colunas_obrigatorias /\ (c' ∉ columns df) /\
                preparar_dados py r h = (Raise (KeyError [c']), h').
Proof.
  intros Hr Hc Hnin.
  destruct (limpar_e_derivar_run py h r df Hr) as (t & Hrun & _).
  destruct (derivado py df) as [out | e] eqn:Hd.
  - exfalso. apply Hnin. eapply derivado_Ok_columns; eauto.
  - destruct (derivado_Raise py df e Hd) as (c' & -> & Hc' & Hnin').
    exists c', (h ++ t). split; [exact Hc' |]. split; [exact Hnin' |].
    unfold preparar_dados. now rewrite bind_run, Hrun.
Qed.

(** ** The first column the table lacks *)

Lemma aplicar_Raise_at specs :
  forall d antes c depois,
  map origem specs = antes ++ c :: depois ->
  (forall x, x ∈ antes -> x ∈ columns d) -> c ∉ columns d ->
  (forall x, x ∈ map origem specs -> x ∉ map destino specs) ->
  aplicar specs d = Raise (KeyError [c]).
Proof.
  induction specs as [| sp specs IH]; intros d antes c depois Hsplit Hantes Hc Hdisj.
  - now destruct antes.
  - cbn [aplicar]. cbn [map] in Hsplit, Hdisj. unfold derivar_coluna.
    destruct antes as [| a antes]; cbn [app] in Hsplit; injection Hsplit as Ha Hsplit.
    + unfold frame_getitem. rewrite Ha, (col_lookup_None _ _ Hc). reflexivity.
    + unfold frame_getitem.
      destruct (col_lookup_columns (origem sp) (cols d)) as [s ->].
      { rewrite Ha. apply Hantes, list_elem_of_here. }
      cbn [mbind result_bind mret result_ret].
      apply (IH _ antes c depois Hsplit).
      * intros x Hx. apply columns_setitem_mono, Hantes. now apply list_elem_of_further.
      * unfold columns. cbn [frame_setitem cols]. rewrite columns_assign.
        case_decide; [exact Hc |]. apply not_elem_of_app. split; [exact Hc |].
        intros ->%list_elem_of_singleton.
        apply (Hdisj (destino sp)); [| apply list_elem_of_here].
        apply list_elem_of_further. rewrite Hsplit. apply elem_of_app. right.
        apply list_elem_of_here.
      * intros x Hx Hx'. apply (Hdisj x); now apply list_elem_of_further.
Qed.

Lemma derivado_Raise_at py d antes c depois :
  colunas_obrigatorias = antes ++ c :: depois ->
  (forall x, x ∈ antes -> x ∈ columns d) -> c ∉ columns d ->
  derivado py d = Raise (KeyError [c]).
Proof.
  intros Hsplit Hantes Hc. unfold derivado.
  change colunas_obrigatorias
    with ("TP_PRESENCA_CH" :: "NU_NOTA_CH" :: map origem derivacoes) in Hsplit.
  destruct antes as [| a1 [| a2 antes]]; cbn [app] in Hsplit.
  - injection Hsplit as <- _. unfold presentes, frame_getitem.
    now rewrite (col_lookup_None _ _ Hc).
  - injection Hsplit as <- <- _. unfold presentes, frame_getitem.
    destruct (col_lookup_columns "TP_PRESENCA_CH" (cols d)) as [p ->];
      [apply Hantes, list_elem_of_here |].
    cbn [mbind result_bind]. rewrite frame_dropna_one, columns_select.
    now rewrite decide_False.
  - injection Hsplit as <- <- Hsplit.
    destruct (presentes_Ok d) as [d3 Hd3]; [apply Hantes; set_solver .. |].
    rewrite Hd3. cbn [mbind result_bind]. rewrite variaveis_criadas_aplicar.
    destruct (tipos_ajustados_frame py d3) as [_ Hcols].
    apply presentes_inv in Hd3 as (_ & _ & _ & Hcols3 & _).
    apply (aplicar_Raise_at derivacoes _ antes c depois Hsplit).
    + intros x Hx. rewrite Hcols, Hcols3. apply Hantes. set_solver.
    + now rewrite Hcols, Hcols3.
    + apply Forall_forall. compute_done.
Qed.

(** ** The reading of numbers *)

Lemma span_app p l : (span p l).1 ++ (span p l).2 = l.
Proof.
  induction l as [| a l IH]; cbn [span]; [reflexivity |].
  destruct (p a); cbn [fst snd app]; [now rewrite IH | reflexivity].
Qed.

Lemma span_Forall p l : Forall (fun a => p a = true) (span p l).1.
Proof.
  induction l as [| a l IH]; cbn [span]; [constructor |].
  destruct (p a) eqn:Ha; cbn [fst]; now constructor.
Qed.

Lemma span_all p l : Forall (fun a => p a = true) l -> span p l = (l, []).
Proof.
  induction 1 as [| a l Ha _ IH]; cbn [span]; [reflexivity |].
  now rewrite Ha, IH.
Qed.

Lemma span_chars p l :
  (forall a, p a = true -> numeral_char a = true) ->
  Forall (fun a => numeral_char a = true) (span p l).2 ->
  Forall (fun a => numeral_char a = true) l.
Proof.
  intros Hp Hrest. rewrite <- (span_app p l). apply Forall_app. split; [| exact Hrest].
  eapply Forall_impl; [apply span_Forall |]. exact Hp.
Qed.

Lemma numeral_char_digit a : is_digit a = true -> numeral_char a = true.
Proof. unfold numeral_char. now intros ->. Qed.

Lemma numeral_char_space a : is_space a = true -> numeral_char a = true.
Proof. unfold numeral_char. intros ->. now rewrite orb_true_r. Qed.

Lemma numeral_char_lower a :
  existsb (Ascii.eqb (lower a)) ["+"; "-"; "."; "e"; "i"; "n"; "f"; "t"; "y"]%char = true ->
  numeral_char a = true.
Proof. unfold numeral_char. intros ->. now rewrite orb_true_r. Qed.

Lemma read_sign_chars l :
  Forall (fun a => numeral_char a = true) (read_sign l).2 ->
  Forall (fun a => numeral_char a = true) l.
Proof.
  unfold read_sign. destruct l as [| a l]; [auto |].
  destruct (Ascii.eqb_spec a "-") as [-> |]; [now constructor |].
  destruct (Ascii.eqb_spec a "+") as [-> |]; [now constructor | auto].
Qed.

Lemma read_fraction_chars l :
  Forall (fun a => numeral_char a = true) (read_fraction l).2 ->
  Forall (fun a => numeral_char a = true) l.
Proof.
  unfold read_fraction. destruct l as [| a l]; [auto |].
  destruct (Ascii.eqb_spec a ".") as [-> |]; [| auto]. cbn [snd].
  intros Hrest. constructor; [reflexivity |].
  apply (span_chars is_digit); [apply numeral_char_digit | exact Hrest].
Qed.

Lemma read_exponent_chars l :
  Forall (fun a => numeral_char a = true) (read_exponent l).2 ->
  Forall (fun a => numeral_char a = true) l.
Proof.
  unfold read_exponent. destruct l as [| a l]; [auto |].
  destruct (Ascii.eqb (lower a) "e") eqn:He; [| auto].
  destruct (read_sign l) as [s l1] eqn:Hs.
  destruct (span is_digit l1).1 as [| d ds]; [auto |]. cbn [snd].
  intros Hrest. constructor.
  - apply numeral_char_lower. cbn [existsb]. rewrite He. now rewrite !orb_true_r.
  - apply read_sign_chars. rewrite Hs. cbn [snd].
    apply (span_chars is_digit); [apply numeral_char_digit | exact Hrest].
Qed.

Lemma numeral_chars l n :
  numeral l = Some n -> Forall (fun a => numeral_char a = true) l.
Proof.
  unfold numeral.
  destruct (read_sign (span is_space l).2) as [sign l1] eqn:H1.
  destruct (read_fraction (span is_digit l1).2) as [[point fp] l2] eqn:H2.
  destruct (read_exponent l2) as [[expo e] l3] eqn:H3.
  destruct ((span is_digit l1).1 ++ fp) as [| d ds]; [discriminate |].
  destruct (span is_space l3).2 as [| x xs] eqn:H4; [| discriminate]. intros _.
  apply (span_chars is_space); [apply numeral_char_space |].
  apply read_sign_chars. rewrite H1. cbn [snd].
  apply (span_chars is_digit); [apply numeral_char_digit |].
  apply read_fraction_chars. rewrite H2. cbn [snd].
  apply read_exponent_chars. rewrite H3. cbn [snd].
  apply (span_chars is_space); [apply numeral_char_space |].
  rewrite H4. constructor.
Qed.

Lemma infinity_word_chars l b :
  infinity_word l = Some b -> Forall (fun a => numeral_char a = true) l.
Proof.
  unfold infinity_word. intros Hw.
  assert (Hex : existsb (String.eqb (string_of_list_ascii (map lower l)))
                  ["inf"; "+inf"; "infinity"; "+infinity"; "-inf"; "-infinity"] = true).
  { change ["inf"; "+inf"; "infinity"; "+infinity"; "-inf"; "-infinity"]
      with (["inf"; "+inf"; "infinity"; "+infinity"] ++ ["-inf"; "-infinity"]).
    rewrite existsb_app.
    destruct (existsb _ ["inf"; "+inf"; "infinity"; "+infinity"]); [reflexivity |].
    destruct (existsb _ ["-inf"; "-infinity"]); [reflexivity | discriminate]. }
  apply existsb_exists in Hex as (w & Hin & Heq%String.eqb_eq).
  assert (Hl : map lower l = list_ascii_of_string w)
    by now rewrite <- Heq, list_ascii_of_string_of_list_ascii.
  assert (Hall : Forall (fun c => existsb (Ascii.eqb c)
                   ["+"; "-"; "."; "e"; "i"; "n"; "f"; "t"; "y"]%char = true) (map lower l)).
  { rewrite Hl. cbn [In] in Hin.
    destruct Hin as [<- | [<- | [<- | [<- | [<- | [<- | []]]]]]]; repeat constructor. }
  apply Forall_map in Hall. eapply Forall_impl; [exact Hall |].
  intros a. apply numeral_char_lower.
Qed.

(** A string read as a number has only characters of numbers. *)
Lemma decimal_of_string_chars t n :
  decimal_of_string t = Some n ->
  Forall (fun a => numeral_char a = true) (list_ascii_of_string t).
Proof.
  unfold decimal_of_string.
  destruct (infinity_word (list_ascii_of_string t)) as [b |] eqn:Hw.
  - intros _. now apply (infinity_word_chars _ b).
  - apply numeral_chars.
Qed.

Lemma decimal_of_string_foreign t a :
  In a (list_ascii_of_string t) -> numeral_char a = false -> decimal_of_string t = None.
Proof.
  intros Hin Ha. destruct (decimal_of_string t) as [n |] eqn:Ht; [| reflexivity].
  apply decimal_of_string_chars in Ht. rewrite Forall_forall in Ht.
  apply list_elem_of_In in Hin. specialize (Ht a Hin). congruence.
Qed.

(** *** The decimal writing of an integer reads back *)

Lemma uint_chars_digits d :
  Forall (fun a => is_digit a = true) (list_ascii_of_string (NilEmpty.string_of_uint d)).
Proof.
  induction d; cbn [NilEmpty.string_of_uint list_ascii_of_string]; constructor;
    solve [reflexivity | assumption].
Qed.

Lemma uint_chars_acc d (acc : positive) :
  fold_left (fun acc a => 10 * acc + default 0 (digit_of a))
            (list_ascii_of_string (NilEmpty.string_of_uint d)) (Z.pos acc)
  = Z.pos (Pos.of_uint_acc d acc).
Proof.
  revert acc.
  induction d as [| d IH | d IH | d IH | d IH | d IH | d IH | d IH | d IH | d IH | d IH];
    intros acc; cbn [NilEmpty.string_of_uint list_ascii_of_string fold_left Pos.of_uint_acc];
    [reflexivity | rewrite <- IH; f_equal ..];
    change (default 0 (digit_of _)) with 0 || change (default 0 (digit_of _)) with 1
    || change (default 0 (digit_of _)) with 2 || change (default 0 (digit_of _)) with 3
    || change (default 0 (digit_of _)) with 4 || change (default 0 (digit_of _)) with 5
    || change (default 0 (digit_of _)) with 6 || change (default 0 (digit_of _)) with 7
    || change (default 0 (digit_of _)) with 8 || change (default 0 (digit_of _)) with 9; lia.
Qed.

Lemma uint_chars_value d :
  digits_value (list_ascii_of_string (NilEmpty.string_of_uint d)) = Z.of_N (Pos.of_uint d).
Proof.
  unfold digits_value.
  induction d as [| d IH | d IH | d IH | d IH | d IH | d IH | d IH | d IH | d IH | d IH];
    cbn [NilEmpty.string_of_uint list_ascii_of_string fold_left Pos.of_uint];
    [reflexivity | exact IH | apply (uint_chars_acc d) ..].
Qed.

Lemma is_digit_first a :
  is_digit a = true ->
  is_space a = false /\ Ascii.eqb a "-" = false /\ Ascii.eqb a "+" = false /\
  Ascii.eqb (lower a) "i" = false /\ Ascii.eqb (lower a) "+" = false /\
  Ascii.eqb (lower a) "-" = false.
Proof.
  destruct a as [[] [] [] [] [] [] [] []]; intros Ha; try discriminate Ha;
    repeat split; reflexivity.
Qed.

Lemma infinity_word_digit a l : is_digit a = true -> infinity_word (a :: l) = None.
Proof.
  intros (_ & _ & _ & Hi & Hp & Hm)%is_digit_first.
  unfold infinity_word. cbn [map string_of_list_ascii existsb String.eqb].
  now rewrite Hi, Hp, Hm.
Qed.

Lemma infinity_word_minus_digit a l :
  is_digit a = true -> infinity_word ("-"%char :: a :: l) = None.
Proof.
  intros (_ & _ & _ & Hi & Hp & Hm)%is_digit_first.
  unfold infinity_word. cbn [map string_of_list_ascii existsb String.eqb].
  now rewrite Hi.
Qed.

Lemma read_unsigned l :
  Forall (fun a => is_digit a = true) l -> 0 < digits_value l < 2 ^ 64 ->
  infinity_word l = None /\ numeral l = Some (Int (digits_value l)).
Proof.
  intros Hl Hv. destruct l as [| a l]; [now destruct Hv |].
  pose proof (Forall_inv Hl) as Ha.
  destruct (is_digit_first a Ha) as (Hsp & Hm & Hp & _).
  split; [now apply infinity_word_digit |].
  unfold numeral. cbn [span]. rewrite Hsp. cbn [snd].
  unfold read_sign. rewrite Hm, Hp.
  rewrite (span_all is_digit _ Hl). cbn [fst snd read_fraction read_exponent span].
  rewrite app_nil_r, Z.mul_1_l. cbn [negb andb].
  assert (H1 : (- 2 ^ 63 <=? digits_value (a :: l)) = true)
    by (apply Z.leb_le; change (2 ^ 63) with 9223372036854775808; lia).
  assert (H2 : (digits_value (a :: l) <? 2 ^ 64) = true) by (apply Z.ltb_lt; lia).
  now rewrite H1, H2.
Qed.

Lemma read_negative l :
  Forall (fun a => is_digit a = true) l -> 0 < digits_value l <= 2 ^ 63 ->
  infinity_word ("-"%char :: l) = None /\
  numeral ("-"%char :: l) = Some (Int (- digits_value l)).
Proof.
  intros Hl Hv. destruct l as [| a l]; [now destruct Hv |].
  pose proof (Forall_inv Hl) as Ha.
  split; [now apply infinity_word_minus_digit |].
  unfold numeral. cbn [span]. change (is_space "-") with false. cbn [snd].
  unfold read_sign. change (Ascii.eqb "-" "-") with true. cbv iota.
  rewrite (span_all is_digit _ Hl). cbn [fst snd read_fraction read_exponent span].
  rewrite app_nil_r. cbn [negb andb].
  replace (-1 * digits_value (a :: l)) with (- digits_value (a :: l)) by lia.
  assert (H1 : (- 2 ^ 63 <=? - digits_value (a :: l)) = true) by (apply Z.leb_le; lia).
  assert (H2 : (- digits_value (a :: l) <? 2 ^ 64) = true)
    by (apply Z.ltb_lt; change (2 ^ 64) with 18446744073709551616; lia).
  now rewrite H1, H2.
Qed.

Lemma to_uint_chars p :
  NilZero.string_of_uint (Pos.to_uint p) = NilEmpty.string_of_uint (Pos.to_uint p) /\
  digits_value (list_ascii_of_string (NilEmpty.string_of_uint (Pos.to_uint p))) = Z.pos p.
Proof.
  pose proof (Unsigned.of_to p) as Hp. split.
  - destruct (Pos.to_uint p); [discriminate | reflexivity ..].
  - now rewrite uint_chars_value, Hp.
Qed.

(** The decimal writing of an integer of 64 bits reads as that integer. *)
Lemma decimal_of_string_int_str z :
  - 2 ^ 63 <= z < 2 ^ 64 -> decimal_of_string (int_str z) = Some (Int z).
Proof.
  intros Hz. unfold int_str, decimal_of_string.
  change (2 ^ 63) with 9223372036854775808 in Hz.
  change (2 ^ 64) with 18446744073709551616 in Hz.
  destruct z as [| p | p]; cbn [Z.to_int NilZero.string_of_int].
  - reflexivity.
  - destruct (to_uint_chars p) as [-> Hv].
    destruct (read_unsigned _ (uint_chars_digits (Pos.to_uint p))) as [-> ->];
      [rewrite Hv; change (2 ^ 64) with 18446744073709551616; lia |].
    now rewrite Hv.
  - destruct (to_uint_chars p) as [-> Hv]. cbn [list_ascii_of_string].
    destruct (read_negative _ (uint_chars_digits (Pos.to_uint p))) as [-> ->];
      [rewrite Hv; change (2 ^ 63) with 9223372036854775808; lia |].
    now rewrite Hv.
Qed.

(** *** Digits, a point, digits *)

Lemma span_stop p ip x r :
  Forall (fun a => p a = true) ip -> p x = false -> span p (ip ++ x :: r) = (ip, x :: r).
Proof.
  intros Hip Hx. induction Hip as [| a ip Ha _ IH]; cbn [app span].
  - now rewrite Hx.
  - now rewrite Ha, IH.
Qed.

Lemma infinity_word_point l : infinity_word ("."%char :: l) = None.
Proof. reflexivity. Qed.

(** A numeral with a point and no sign nor exponent reads as the float
    with those digits and as many decimals as follow the point. *)
Lemma decimal_of_string_point ip fp :
  Forall (fun a => is_digit a = true) ip -> Forall (fun a => is_digit a = true) fp ->
  ip ++ fp <> [] ->
  digits_value (ip ++ fp) < float64_limit * 10 ^ Z.of_nat (length fp) ->
  decimal_of_string (string_of_list_ascii (ip ++ "."%char :: fp))
  = Some (Float (digits_value (ip ++ fp) # Z.to_pos (10 ^ Z.of_nat (length fp)))).
Proof.
  intros Hip Hfp Hne Hv. unfold decimal_of_string.
  rewrite list_ascii_of_string_of_list_ascii.
  assert (Hfirst : infinity_word (ip ++ "."%char :: fp) = None /\
                   span is_space (ip ++ "."%char :: fp) = ([], ip ++ "."%char :: fp) /\
                   read_sign (ip ++ "."%char :: fp) = (1, ip ++ "."%char :: fp)).
  { destruct Hip as [| a ip Ha _]; cbn [app]; [repeat split |].
    destruct (is_digit_first a Ha) as (Hsp & Hm & Hp & _).
    split; [now apply infinity_word_digit |].
    split; [cbn [span]; now rewrite Hsp | unfold read_sign; now rewrite Hm, Hp]. }
  destruct Hfirst as (-> & Hsp & Hsign).
  unfold numeral. rewrite Hsp. cbn [snd]. rewrite Hsign.
  rewrite (span_stop is_digit ip "." fp Hip eq_refl). cbn [fst snd].
  unfold read_fraction. change (Ascii.eqb "." ".") with true. cbv iota.
  rewrite (span_all is_digit fp Hfp). cbn [fst snd read_exponent span].
  destruct (ip ++ fp) as [| d ds] eqn:Hd; [contradiction |].
  rewrite Z.mul_1_l, Z.sub_0_r. cbn [negb andb].
  assert (H0 : 0 <= digits_value (d :: ds)).
  { unfold digits_value. assert (Hacc : forall l acc, 0 <= acc ->
      0 <= fold_left (fun acc a => 10 * acc + default 0 (digit_of a)) l acc).
    { induction l as [| a l IH]; intros acc Hacc; cbn [fold_left]; [exact Hacc |].
      apply IH. unfold digit_of.
      destruct (_ && _) eqn:Hr; cbn [default]; [| unfold id; lia].
      apply andb_prop in Hr as [Hr%Z.leb_le _]. unfold id. lia. }
    apply Hacc. lia. }
  assert (H1 : (0 <=? Z.of_nat (length fp)) = true) by (apply Z.leb_le; lia).
  assert (H2 : (Z.abs (digits_value (d :: ds)) <? float64_limit * 10 ^ Z.of_nat (length fp)) = true)
    by (apply Z.ltb_lt; rewrite Z.abs_eq by exact H0; exact Hv).
  now rewrite H1, H2.
Qed.

(** * The claims *)

(** ** C1: the rows kept *)

(** A candidate who was present and whose Humanities score is the text
    [abc] passes the filter and the null-drop of lines 91-94, and the
    coercion of line 101 then makes the score missing: the row stays in
    [df_clean] with the presence code 1 and no Humanities score.  The call
    itself ends in the [ValueError] of [pd.cut] and returns no table. *)
Lemma nota_texto_fica_sem_nota :
  (limpar_e_derivar decimal 0%nat [Exemplos.nota_texto]).1 = Ok 3%nat /\
  coluna (limpar_e_derivar decimal 0%nat [Exemplos.nota_texto]).2 3%nat "TP_PRESENCA_CH"
    = Some [Num (Int 1)] /\
  coluna (limpar_e_derivar decimal 0%nat [Exemplos.nota_texto]).2 3%nat "NU_NOTA_CH"
    = Some [NaN] /\
  notna NaN = false /\
  (preparar_dados decimal 0%nat [Exemplos.nota_texto]).1
    = Raise (ValueError "Bin labels must be one fewer than the number of bin edges").
Proof. repeat split; vm_compute; reflexivity. Qed.



(** ** C2 and C10: the income index *)

(** C2: the index the lambda of line 193 gives to the seventeen income
    letters is the position in the string that has the letters separated by
    spaces: 0, 2, 4, ..., 32, not 0, 1, 2, ..., 16; the empty string gets 0,
    a string of two consecutive letters raises, and only a string that does
    not occur in the seventeen letters gets -1. *)
Theorem C2_indice_das_letras :
  map indice_faixa_renda
      ["A"; "B"; "C"; "D"; "E"; "F"; "G"; "H"; "I"; "J"; "K"; "L"; "M"; "N"; "O"; "P"; "Q"]
  = map Ok [0; 2; 4; 6; 8; 10; 12; 14; 16; 18; 20; 22; 24; 26; 28; 30; 32] /\
  indice_faixa_renda "B" <> Ok 1 /\
  indice_faixa_renda "" = Ok 0 /\
  indice_faixa_renda "AB" = Raise (ValueError "substring not found") /\
  indice_faixa_renda "nan" = Ok (-1) /\
  indice_faixa_renda "R" = Ok (-1).
Proof. repeat split; try discriminate; vm_compute; reflexivity. Qed.

(** C10: a cell of the income column whose string is empty gets the index
    0, the index of the letter A, at line 193 and at line 374 alike, because
    the empty string occurs in ['ABCDEFGHIJKLMNOPQ']. *)
Theorem C10_codigo_vazio py (c : cell) :
  astype_str py c = "" ->
  py_in (astype_str py c) "ABCDEFGHIJKLMNOPQ" = true /\
  indice_faixa_renda (astype_str py c) = Ok 0 /\
  indice_faixa_renda (astype_str py c) = indice_faixa_renda "A" /\
  indice_faixa_renda (astype_str py c) <> Ok (-1) /\
  indice_renda (astype_str py c) = Ok (Num (Int 0)) /\
  indice_renda (astype_str py c) = indice_renda "A".
Proof.
  intros ->. repeat split; try discriminate; vm_compute; reflexivity.
Qed.

(** The hypothesis of [C10_codigo_vazio] at the cell that holds the empty
    string. *)
Lemma C10_witness :
  astype_str decimal (Str "") = "" /\
  indice_faixa_renda (astype_str decimal (Str "")) = Ok 0.
Proof.
  split; [reflexivity |].
  exact (proj1 (proj2 (C10_codigo_vazio decimal (Str "") eq_refl))).
Defined.

(** ** C3: the income bucket *)

(** C3: [pd.cut] is called with the six edges [-1, 0, 3, 6, 10, 16], which
    make five intervals, and six labels: it raises for every column of
    indices, so no index gets a bucket.  The intervals themselves are open
    on the left: -1 lies in none of them. *)
Theorem C3_faixa_renda_raises :
  length bins_faixa_renda = 6%nat /\
  length labels_faixa_renda = 6%nat /\
  (forall x, pd_cut x bins_faixa_renda labels_faixa_renda
             = Raise (ValueError "Bin labels must be one fewer than the number of bin edges")) /\
  pd_cut [-1; 0; 1; 3; 4; 16] bins_faixa_renda labels_faixa_renda
    = Raise (ValueError "Bin labels must be one fewer than the number of bin edges") /\
  map (bin_of bins_faixa_renda) [-1; 0; 1; 3; 4; 16]
    = [None; Some 0; Some 1; Some 1; Some 2; Some 4]%nat.
Proof. repeat split. Qed.

(** ** C6: the coercion of the scores *)

(** C6, with the reading of numbers of [decimal_of_string].  Lines 96-101
    never raise; they replace each of the five score columns the table has
    by its coercion, cell by cell, and touch no other column nor the rows.
    The coercion leaves a missing value missing and a number as it is; of a
    string it makes the number read in it, and the missing value when none
    is: ["450.5"] becomes 450.5, the decimal writing of an integer up to
    2^53 becomes that integer, digits with a point become the float with
    those digits and as many decimals as follow the point; ["abc"],
    ["1.2.3"], ["12,5"], the empty string and every string with a character
    that occurs in no number become missing.  In the table [df_clean] of line 189, each score
    column is the coercion of the cells the input has in the rows kept. *)
Theorem C6_coercao_das_notas (h : heap) (df_clean : ref) (d : DataFrame) :
  h !! df_clean = Some d ->
  ajustar_tipos decimal df_clean h = (Ok tt, <[df_clean := tipos_ajustados decimal d]> h) /\
  rows (tipos_ajustados decimal d) = rows d /\
  (forall col s, col ∈ colunas_numericas -> col_lookup col (cols d) = Some s ->
     col_lookup col (cols (tipos_ajustados decimal d))
     = Some (map (to_numeric_coerce decimal) s)) /\
  (forall col, col ∉ colunas_numericas ->
     col_lookup col (cols (tipos_ajustados decimal d)) = col_lookup col (cols d)) /\
  to_numeric_coerce decimal NaN = NaN /\
  (forall n, to_numeric_coerce decimal (Num n) = Num n) /\
  to_numeric_coerce decimal (Str "450.5") = Num (Float 450.5) /\
  to_numeric_coerce decimal (Str "abc") = NaN /\
  to_numeric_coerce decimal (Str "") = NaN /\
  (forall z, - 2 ^ 53 <= z <= 2 ^ 53 ->
     to_numeric_coerce decimal (Str (int_str z)) = Num (Int z)) /\
  to_numeric_coerce decimal (Str "1.2.3") = NaN /\
  to_numeric_coerce decimal (Str "12,5") = NaN /\
  (forall ip fp,
     Forall (fun a => is_digit a = true) ip -> Forall (fun a => is_digit a = true) fp ->
     ip ++ fp <> [] ->
     digits_value (ip ++ fp) < float64_limit * 10 ^ Z.of_nat (length fp) ->
     to_numeric_coerce decimal (Str (string_of_list_ascii (ip ++ "."%char :: fp)))
     = Num (Float (digits_value (ip ++ fp) # Z.to_pos (10 ^ Z.of_nat (length fp))))) /\
  (forall t a, In a (list_ascii_of_string t) -> numeral_char a = false ->
     to_numeric_coerce decimal (Str t) = NaN) /\
  (forall (h0 : heap) r df,
     h0 !! r = Some df ->
     (forall c, c ∈ colunas_obrigatorias -> c ∈ columns df) ->
     exists h1 out,
       limpar_e_derivar decimal r h0 = (Ok (length h0 + 2)%nat, h1) /\
       h1 !! (length h0 + 2)%nat = Some out /\
       forall col s, col ∈ colunas_numericas -> col_lookup col (cols df) = Some s ->
         col_lookup col (cols out) = Some (map (to_numeric_coerce decimal) (manter df s))).
Proof.
  intros Hc. split; [exact (ajustar_tipos_run decimal h df_clean d Hc) |].
  split; [apply tipos_ajustados_frame |].
  split.
  { intros col s Hcol Hs. rewrite tipos_ajustados_lookup, decide_True by assumption.
    now rewrite Hs. }
  split.
  { intros col Hcol. now rewrite tipos_ajustados_lookup, decide_False. }
  split; [reflexivity |]. split; [reflexivity |].
  split; [vm_compute; reflexivity |]. split; [vm_compute; reflexivity |].
  split; [vm_compute; reflexivity |].
  split.
  { intros z Hz. cbn [to_numeric_coerce str_to_number decimal].
    rewrite decimal_of_string_int_str; [reflexivity |].
    change (2 ^ 53) with 9007199254740992 in Hz.
    change (2 ^ 63) with 9223372036854775808.
    change (2 ^ 64) with 18446744073709551616. lia. }
  split; [vm_compute; reflexivity |]. split; [vm_compute; reflexivity |].
  split.
  { intros ip fp Hip Hfp Hne Hv. cbn [to_numeric_coerce str_to_number decimal].
    now rewrite decimal_of_string_point. }
  split.
  { intros t a Hin Ha. cbn [to_numeric_coerce str_to_number decimal].
    now rewrite (decimal_of_string_foreign t a). }
  intros h0 r df Hr Hreq.
  destruct (derivado_Ok decimal df Hreq) as [out Hout].
  destruct (limpar_e_derivar_run decimal h0 r df Hr) as (t & Hrun & Hlook).
  rewrite Hout in Hrun. exists (h0 ++ t), out.
  split; [exact Hrun |]. split; [now apply Hlook |].
  intros col s Hcol Hs.
  rewrite (derivado_lookup decimal df out col Hout).
  - rewrite decide_True by exact Hcol. now rewrite Hs.
  - clear Hs. revert col Hcol. apply Forall_forall. compute_done.
Qed.

(** The hypothesis of [C6_coercao_das_notas] at the table whose scores are
    text: ["450.5"] becomes 450.5 and ["abc"] the missing value. *)
Lemma C6_witness :
  [Exemplos.notas_em_texto] !! 0%nat = Some Exemplos.notas_em_texto /\
  ajustar_tipos decimal 0%nat [Exemplos.notas_em_texto]
    = (Ok tt, [tipos_ajustados decimal Exemplos.notas_em_texto]) /\
  col_lookup "NU_NOTA_CH" (cols (tipos_ajustados decimal Exemplos.notas_em_texto))
    = Some [Num (Float 450.5)] /\
  col_lookup "NU_NOTA_MT" (cols (tipos_ajustados decimal Exemplos.notas_em_texto))
    = Some [NaN].
Proof.
  split; [reflexivity |].
  destruct (C6_coercao_das_notas [Exemplos.notas_em_texto] 0%nat
              Exemplos.notas_em_texto eq_refl) as (Hrun & _ & Hcol & _).
  split; [exact Hrun |]. split.
  - apply (Hcol "NU_NOTA_CH" [Str "450.5"]); [compute_done | reflexivity].
  - apply (Hcol "NU_NOTA_MT" [Str "abc"]); [compute_done | reflexivity].
Defined.

(** ** C7: what the call changes *)

(** The table [df_clean] of line 189, for a table with the columns the
    call reads and none of the seven derived names: it has the rows lines
    88-94 keep, no more than the input has; its columns are those of the
    input followed by the seven derived columns; a column of the input other
    than the five scores holds the cells of the rows kept, unchanged, and a
    score column holds their coercion. *)
Lemma df_clean_linhas_e_colunas py (h : heap) r df :
  h !! r = Some df ->
  (forall c, c ∈ colunas_obrigatorias -> c ∈ columns df) ->
  (forall c, c ∈ colunas_derivadas -> c ∉ columns df) ->
  exists t out,
    limpar_e_derivar py r h = (Ok (length h + 2)%nat, h ++ t) /\
    (h ++ t) !! (length h + 2)%nat = Some out /\
    rows out = manter df (rows df) /\
    (nrows out <= nrows df)%nat /\
    columns out = columns df ++ colunas_derivadas /\
    forall c s, col_lookup c (cols df) = Some s ->
      col_lookup c (cols out) =
        Some (if decide (c ∈ colunas_numericas)
              then map (to_numeric_coerce py) (manter df s)
              else manter df s).
Proof.
  intros Hr Hreq Hfresh.
  destruct (derivado_Ok py df Hreq) as [out Hout].
  destruct (limpar_e_derivar_run py h r df Hr) as (t & Hrun & Hlook).
  rewrite Hout in Hrun. exists t, out.
  split; [exact Hrun |].
  split; [now apply Hlook |].
  pose proof (derivado_rows py df out Hout) as Hrows.
  split; [exact Hrows |].
  split; [unfold nrows; rewrite Hrows; apply manter_length_le |].
  split; [now apply (derivado_columns py) |].
  intros c s Hs.
  assert (Hc : c ∉ colunas_derivadas).
  { intros Hc. apply (Hfresh c Hc). apply elem_of_columns. rewrite Hs. eauto. }
  rewrite (derivado_lookup py df out c Hout Hc), Hs. now case_decide.
Qed.



(** In the table the call was working on, the score columns are not those
    of the input: for the row kept, the Humanities score read as the text
    ["450.5"] is the number 450.5 in [df_clean], and the Mathematics score
    read as the text ["abc"] is missing. *)
Lemma notas_em_texto_coagidas :
  (limpar_e_derivar decimal 0%nat [Exemplos.notas_em_texto]).1 = Ok 3%nat /\
  (rows <$> (limpar_e_derivar decimal 0%nat [Exemplos.notas_em_texto]).2 !! 3%nat)
    = Some (rows Exemplos.notas_em_texto) /\
  col_lookup "NU_NOTA_CH" (cols Exemplos.notas_em_texto) = Some [Str "450.5"] /\
  coluna (limpar_e_derivar decimal 0%nat [Exemplos.notas_em_texto]).2 3%nat "NU_NOTA_CH"
    = Some [Num (Float 450.5)] /\
  col_lookup "NU_NOTA_MT" (cols Exemplos.notas_em_texto) = Some [Str "abc"] /\
  coluna (limpar_e_derivar decimal 0%nat [Exemplos.notas_em_texto]).2 3%nat "NU_NOTA_MT"
    = Some [NaN] /\
  coluna (limpar_e_derivar decimal 0%nat [Exemplos.notas_em_texto]).2 3%nat "NU_NOTA_MT"
    <> col_lookup "NU_NOTA_MT" (cols Exemplos.notas_em_texto) /\
  (preparar_dados decimal 0%nat [Exemplos.notas_em_texto]).1
    = Raise (ValueError "Bin labels must be one fewer than the number of bin edges").
Proof. repeat split; try (vm_compute; reflexivity). vm_compute. discriminate. Qed.

(** ** C9: the call never returns *)

(** C9, as the code has it.  No call returns a table: every call raises.
    A table that lacks one of the nine columns the call reads makes it raise
    the [KeyError] of the first it lacks, before line 192.  For a table
    with the nine columns, lines 87-189 succeed and the statement of lines
    192-196 raises: the [ValueError] of [pd.cut], called with six labels for
    the five intervals of six edges, when the lambda of line 193 gives an
    index to the income cell of every row kept; and otherwise what the
    lambda raises on the first such cell it gives none, the [ValueError] of
    [str.index] for a string that occurs in ['ABCDEFGHIJKLMNOPQ'] and has
    two characters or more, or a [TypeError] for a cell still missing after
    [astype('str')]. *)
Theorem C9_sempre_levanta py (h : heap) r df :
  h !! r = Some df ->
  (exists e h', preparar_dados py r h = (Raise e, h')) /\
  (forall antes c depois,
     colunas_obrigatorias = antes ++ c :: depois ->
     (forall x, x ∈ antes -> x ∈ columns df) -> c ∉ columns df ->
     exists h',
       limpar_e_derivar py r h = (Raise (KeyError [c]), h') /\
       preparar_dados py r h = (Raise (KeyError [c]), h')) /\
  length labels_faixa_renda = 6%nat /\
  length bins_faixa_renda = 6%nat /\
  ((forall c, c ∈ colunas_obrigatorias -> c ∈ columns df) ->
   exists h1 e h' q,
     limpar_e_derivar py r h = (Ok (length h + 2)%nat, h1) /\
     agrupar_renda py (length h + 2)%nat h1 = (Raise e, h') /\
     preparar_dados py r h = (Raise e, h') /\
     col_lookup "Q006" (cols df) = Some q /\
     (forallb (tem_indice py) (manter df q) = true ->
        e = ValueError "Bin labels must be one fewer than the number of bin edges") /\
     (forall antes c depois,
        manter df q = antes ++ c :: depois ->
        forallb (tem_indice py) antes = true ->
        tem_indice py c = false ->
        match astype_str_na py c with
        | Some _ => e = ValueError "substring not found"
        | None => exists msg, e = TypeError msg
        end)).
Proof.
  intros Hr. split.
  { destruct (preparar_dados_run py h r df Hr) as (e & t & Hrun & _). eauto. }
  split.
  { intros antes c depois Hsplit Hantes Hc.
    destruct (limpar_e_derivar_run py h r df Hr) as (t & Hrun & _).
    rewrite (derivado_Raise_at py df antes c depois Hsplit Hantes Hc) in Hrun.
    exists (h ++ t). split; [exact Hrun |].
    unfold preparar_dados. now rewrite bind_run, Hrun. }
  split; [reflexivity |]. split; [reflexivity |].
  intros Hreq.
  destruct (derivado_Ok py df Hreq) as [out Hout].
  destruct (limpar_e_derivar_run py h r df Hr) as (t & Hrun & Hlook).
  rewrite Hout in Hrun. specialize (Hlook out Hout).
  destruct (col_lookup_columns "Q006" (cols df)) as [q Hq]; [apply Hreq; compute_done |].
  assert (Hq' : col_lookup "Q006" (cols out) = Some (manter df q)).
  { rewrite (derivado_lookup py df out "Q006" Hout) by compute_done.
    rewrite decide_False by compute_done. now rewrite Hq. }
  destruct (renda_agrupada_raises py out) as [e He].
  pose proof (agrupar_renda_run py _ _ _ Hlook) as Hg. rewrite He in Hg.
  destruct Hg as [d' Hg].
  exists (h ++ t), e, (<[(length h + 2)%nat := d']> (h ++ t)), q.
  split; [exact Hrun |]. split; [exact Hg |].
  split; [unfold preparar_dados; now rewrite bind_run, Hrun, bind_run, Hg |].
  split; [exact Hq |]. split.
  - intros Hall. rewrite (renda_agrupada_cut py out _ Hq' Hall) in He. now injection He.
  - intros antes c depois Hsplit Hantes Hc. rewrite Hsplit in Hq'.
    rewrite (renda_agrupada_lambda py out antes c depois Hq' Hantes Hc) in He.
    injection He as <-. destruct (astype_str_na py c); eauto.
Qed.

(** The hypothesis of [C9_sempre_levanta] at the table whose income code
    is [AB]: the exception is that of [str.index]. *)
Lemma C9_witness :
  [Exemplos.codigo_duplo] !! 0%nat = Some Exemplos.codigo_duplo /\
  (forall c, c ∈ colunas_obrigatorias -> c ∈ columns Exemplos.codigo_duplo) /\
  tem_indice decimal (Str "AB") = false /\
  (preparar_dados decimal 0%nat [Exemplos.codigo_duplo]).1
    = Raise (ValueError "substring not found").
Proof.
  assert (Hreq : forall c, c ∈ colunas_obrigatorias -> c ∈ columns Exemplos.codigo_duplo).
  { apply Forall_forall. vm_compute. repeat constructor. }
  split; [reflexivity |]. split; [exact Hreq |]. split; [reflexivity |].
  destruct (C9_sempre_levanta decimal [Exemplos.codigo_duplo] 0%nat Exemplos.codigo_duplo
              eq_refl) as (_ & _ & _ & _ & Hv).
  destruct (Hv Hreq) as (h1 & e & h' & q & _ & _ & Hrun & Hq & _ & Hlambda).
  injection Hq as <-. rewrite Hrun. cbn [fst]. f_equal.
  exact (Hlambda [] (Str "AB") [] eq_refl eq_refl eq_refl).
Defined.

(** C9 as stated fails for a table that has the income column and lacks
    another column the call reads: the exception is the [KeyError] of line
    91, and lines 192-196 are not reached. *)
Lemma C9_counterexample :
  "Q006" ∈ columns Exemplos.so_renda /\
  filtrar_presentes 0%nat [Exemplos.so_renda]
    = (Raise (KeyError ["TP_PRESENCA_CH"]), [Exemplos.so_renda; Exemplos.so_renda]) /\
  preparar_dados decimal 0%nat [Exemplos.so_renda]
    = (Raise (KeyError ["TP_PRESENCA_CH"]), [Exemplos.so_renda; Exemplos.so_renda]) /\
  (limpar_e_derivar decimal 0%nat [Exemplos.so_renda]).1 <> Ok 2%nat.
Proof.
  split; [compute_done |]. repeat split; try (vm_compute; reflexivity).
  vm_compute. discriminate.
Qed.

(** ** C4, C5 and C8: runs of the call *)

(** C4: a table with every column the call reads, one row of which has
    codes outside the tables and a score that is not a number.  Lines 87-189
    keep both rows and leave missing values in the fields of the second
    row; the call then raises the [ValueError] of [pd.cut] and returns no
    table. *)
Theorem C4_anomalias_nao_retorna :
  Forall (fun c => c ∈ columns Exemplos.anomalias) colunas_obrigatorias /\
  (limpar_e_derivar decimal 0%nat [Exemplos.anomalias]).1 = Ok 3%nat /\
  (rows <$> (limpar_e_derivar decimal 0%nat [Exemplos.anomalias]).2 !! 3%nat)
    = Some [0; 1]%nat /\
  coluna (limpar_e_derivar decimal 0%nat [Exemplos.anomalias]).2 3%nat "NU_NOTA_MT"
    = Some [Num (Float 601.2); NaN] /\
  coluna (limpar_e_derivar decimal 0%nat [Exemplos.anomalias]).2 3%nat "FAIXA_ETARIA_DESC"
    = Some [Str "18 anos"; NaN] /\
  coluna (limpar_e_derivar decimal 0%nat [Exemplos.anomalias]).2 3%nat "RENDA_FAMILIAR"
    = Some [Str "R$ 5.648,01 a R$ 7.060,00"; NaN] /\
  coluna (limpar_e_derivar decimal 0%nat [Exemplos.anomalias]).2 3%nat "NU_NOTA_CH"
    = Some [Num (Float 550); Num (Float 498.7)] /\
  (preparar_dados decimal 0%nat [Exemplos.anomalias]).1
    = Raise (ValueError "Bin labels must be one fewer than the number of bin edges").
Proof.
  split; [vm_compute; repeat constructor |].
  repeat split; vm_compute; reflexivity.
Qed.

(** C5: a table without the Humanities score makes the call raise the
    [KeyError] of that column; a table with every column the call reads
    makes it raise a [ValueError], which is not an error of a missing
    column. *)
Theorem C5_erros_do_chamador :
  col_lookup "NU_NOTA_CH" (cols Exemplos.sem_nota) = None /\
  (preparar_dados decimal 0%nat [Exemplos.sem_nota]).1 = Raise (KeyError ["NU_NOTA_CH"]) /\
  Forall (fun c => c ∈ columns Exemplos.cinco) colunas_obrigatorias /\
  (preparar_dados decimal 0%nat [Exemplos.cinco]).1
    = Raise (ValueError "Bin labels must be one fewer than the number of bin edges").
Proof.
  split; [reflexivity |]. split; [vm_compute; reflexivity |].
  split; [vm_compute; repeat constructor |]. vm_compute. reflexivity.
Qed.

(** C8: five candidates, the first present with the score 550.0 and the
    income code F, the second absent.  Lines 87-189 keep the four rows
    0, 2, 3 and 4 and give the first the income label of F; the index of F
    at line 193 is 10, not 5; the call raises the [ValueError] of [pd.cut]
    and returns no table, so no row gets an income bucket. *)
Theorem C8_cinco_candidatos :
  (limpar_e_derivar decimal 0%nat [Exemplos.cinco]).1 = Ok 3%nat /\
  (rows <$> (limpar_e_derivar decimal 0%nat [Exemplos.cinco]).2 !! 3%nat)
    = Some [0; 2; 3; 4]%nat /\
  coluna (limpar_e_derivar decimal 0%nat [Exemplos.cinco]).2 3%nat "NU_NOTA_CH"
    = Some [Num (Float 550); Num (Float 512.3); Num (Float 701.9); Num (Float 390)] /\
  coluna (limpar_e_derivar decimal 0%nat [Exemplos.cinco]).2 3%nat "RENDA_FAMILIAR"
    = Some [Str "R$ 5.648,01 a R$ 7.060,00"; Str "R$ 1.412,01 a R$ 2.824,00";
            Str "Acima de R$ 21.180,01"; Str "Nenhuma renda"] /\
  mapa_renda !! "F" = Some "R$ 5.648,01 a R$ 7.060,00" /\
  indice_faixa_renda "F" = Ok 10 /\
  bin_of bins_faixa_renda 10 = Some 3%nat /\
  labels_faixa_renda !! 3%nat = Some "Média" /\
  (preparar_dados decimal 0%nat [Exemplos.cinco]).1
    = Raise (ValueError "Bin labels must be one fewer than the number of bin edges").
Proof. repeat split; vm_compute; reflexivity. Qed.

(** The other exception of lines 192-196: the income code [AB] occurs in
    the seventeen letters and not in the string with spaces, and
    [str.index] raises before [pd.cut] is entered. *)
Lemma codigo_duplo_levanta :
  (limpar_e_derivar decimal 0%nat [Exemplos.codigo_duplo]).1 = Ok 3%nat /\
  (preparar_dados decimal 0%nat [Exemplos.codigo_duplo]).1
    = Raise (ValueError "substring not found").
Proof. split; vm_compute; reflexivity. Qed.

(** A row that lines 88-94 drop does not count: the income code [AB] of a
    candidate who was absent raises nothing.  The income cell of the row
    kept is missing: with pandas 1 and 2 it becomes the string [nan], which
    gets the index -1, and the exception is that of [pd.cut]; with pandas 3
    it stays missing and the lambda raises [TypeError]. *)
Lemma renda_ausente_levanta :
  (limpar_e_derivar decimal 0%nat [Exemplos.renda_ausente]).1 = Ok 3%nat /\
  coluna (limpar_e_derivar decimal 0%nat [Exemplos.renda_ausente]).2 3%nat "Q006"
    = Some [NaN] /\
  (preparar_dados decimal 0%nat [Exemplos.renda_ausente]).1
    = Raise (ValueError "Bin labels must be one fewer than the number of bin edges") /\
  exists msg,
    (preparar_dados decimal3 0%nat [Exemplos.renda_ausente]).1 = Raise (TypeError msg).
Proof. repeat split; try (vm_compute; reflexivity). eexists. vm_compute. reflexivity. Qed.

(** * Further properties *)

(** ** The income index on every string *)

(** The lambda of line 193 and the lambda of line 374 on every string: the
    sentinel (-1, or NaN at line 374) when the string does not occur in the
    seventeen letters; 0 for the empty string; twice the rank of the letter
    for one letter; and [ValueError] for every longer string that occurs in
    the seventeen letters. *)
Theorem indice_em_toda_string (x : string) :
  indice_faixa_renda x =
    (if py_in x "ABCDEFGHIJKLMNOPQ" then
       match x with
       | EmptyString => Ok 0
       | String a EmptyString => Ok (2 * (Z.of_nat (nat_of_ascii a) - 65))
       | _ => Raise (ValueError "substring not found")
       end
     else Ok (-1)) /\
  indice_renda x =
    (if py_in x "ABCDEFGHIJKLMNOPQ" then
       match x with
       | EmptyString => Ok (Num (Int 0))
       | String a EmptyString => Ok (Num (Int (2 * (Z.of_nat (nat_of_ascii a) - 65))))
       | _ => Raise (ValueError "substring not found")
       end
     else Ok NaN).
Proof.
  unfold indice_faixa_renda, indice_renda.
  destruct (py_in x "ABCDEFGHIJKLMNOPQ") eqn:Hin; [| split; reflexivity].
  destruct x as [| a [| b x]].
  - split; reflexivity.
  - destruct a as [[] [] [] [] [] [] [] []]; vm_compute in Hin; try discriminate Hin;
      split; vm_compute; reflexivity.
  - unfold py_index. rewrite letras_seguidas_index; [split; reflexivity | exact Hin |].
    cbn [String.length]. lia.
Qed.

(** ** The missing column that is reported *)

(** Of the nine columns the call reads, the first the table lacks, in the
    order the call reads them, is the one the [KeyError] names; the tables
    of the heap stay as they were. *)
Theorem primeira_coluna_ausente py (h : heap) r df antes c depois :
  h !! r = Some df ->
  colunas_obrigatorias = antes ++ c :: depois ->
  (forall x, x ∈ antes -> x ∈ columns df) ->
  c ∉ columns df ->
  exists t, preparar_dados py r h = (Raise (KeyError [c]), h ++ t).
Proof.
  intros Hr Hsplit Hantes Hc.
  destruct (limpar_e_derivar_run py h r df Hr) as (t & Hrun & _).
  rewrite (derivado_Raise_at py df antes c depois Hsplit Hantes Hc) in Hrun.
  exists t. unfold preparar_dados. now rewrite bind_run, Hrun.
Qed.

(** The hypotheses of [primeira_coluna_ausente] at the table without the
    Humanities score, which has the presence column. *)
Lemma primeira_coluna_ausente_witness :
  [Exemplos.sem_nota] !! 0%nat = Some Exemplos.sem_nota /\
  colunas_obrigatorias
    = ["TP_PRESENCA_CH"] ++ "NU_NOTA_CH" ::
      ["TP_FAIXA_ETARIA"; "TP_ESCOLA"; "TP_LOCALIZACAO_ESC"; "Q001"; "Q002"; "Q006"; "Q025"] /\
  (forall x, x ∈ ["TP_PRESENCA_CH"] -> x ∈ columns Exemplos.sem_nota) /\
  ("NU_NOTA_CH" ∉ columns Exemplos.sem_nota) /\
  exists t, preparar_dados decimal 0%nat [Exemplos.sem_nota]
            = (Raise (KeyError ["NU_NOTA_CH"]), [Exemplos.sem_nota] ++ t).
Proof.
  assert (H1 : forall x, x ∈ ["TP_PRESENCA_CH"] -> x ∈ columns Exemplos.sem_nota).
  { apply Forall_forall. compute_done. }
  assert (H2 : "NU_NOTA_CH" ∉ columns Exemplos.sem_nota) by compute_done.
  split; [reflexivity |]. split; [reflexivity |]. split; [exact H1 |]. split; [exact H2 |].
  exact (primeira_coluna_ausente decimal [Exemplos.sem_nota] 0%nat Exemplos.sem_nota
           ["TP_PRESENCA_CH"] "NU_NOTA_CH" _ eq_refl eq_refl H1 H2).
Defined.

(** ** The rows kept *)

(** What lines 87-189 do keep.  For every table with the columns the call
    reads: lines 88-94 come first and leave a table with the columns of the
    input, whose rows were all present at the Humanities exam
    ([TP_PRESENCA_CH == 1]) and have a Humanities score; in the table
    [df_clean] of line 189 the presence code of every row is still 1, and
    the Humanities score is the coerced raw score of a row whose raw score
    was not missing: it is missing again exactly when the raw score is text
    that [pd.to_numeric] does not read as a number. *)
Lemma presentes_com_nota_ate_a_coercao py (h : heap) r df :
  h !! r = Some df ->
  (forall c, c ∈ colunas_obrigatorias -> c ∈ columns df) ->
  exists h1 d3 h' out p s,
    filtrar_presentes r h = (Ok (length h + 2)%nat, h1) /\
    h1 !! (length h + 2)%nat = Some d3 /\
    columns d3 = columns df /\
    so_presentes_com_nota d3 /\
    limpar_e_derivar py r h = (Ok (length h + 2)%nat, h') /\
    h' !! (length h + 2)%nat = Some out /\
    col_lookup "TP_PRESENCA_CH" (cols df) = Some p /\
    col_lookup "NU_NOTA_CH" (cols df) = Some s /\
    col_lookup "TP_PRESENCA_CH" (cols out) = Some (manter df p) /\
    Forall (fun c => py_eq c (Num (Int 1)) = true) (manter df p) /\
    col_lookup "NU_NOTA_CH" (cols out) = Some (map (to_numeric_coerce py) (manter df s)) /\
    Forall (fun c => notna c = true) (manter df s) /\
    Forall (fun c => notna (to_numeric_coerce py c) = false <->
                     exists t, c = Str t /\ str_to_number py t = None)
           (manter df s).
Proof.
  intros Hr Hreq.
  destruct (col_lookup_columns "TP_PRESENCA_CH" (cols df)) as [p Hp];
    [apply Hreq; compute_done |].
  destruct (col_lookup_columns "NU_NOTA_CH" (cols df)) as [s Hs];
    [apply Hreq; compute_done |].
  destruct (derivado_Ok py df Hreq) as [out Hout].
  destruct (limpar_e_derivar_run py h r df Hr) as (t & Hrun & Hlook).
  rewrite Hout in Hrun. specialize (Hlook out Hout).
  pose proof (filtrar_presentes_run h r df Hr) as Hf.
  unfold derivado in Hout. destruct (presentes df) as [d3 |] eqn:Hd3; [| discriminate].
  pose proof Hd3 as Hinv. apply presentes_inv in Hinv as (_ & _ & _ & Hcols & Hl).
  unfold presentes in Hd3. unfold frame_getitem in Hd3, Hf. rewrite Hp in Hd3, Hf.
  cbn [mbind result_bind] in Hd3. cbv zeta in Hf. rewrite Hd3 in Hf.
  assert (Hout' : derivado py df = Ok out).
  { unfold derivado, presentes, frame_getitem. rewrite Hp. cbn [mbind result_bind].
    now rewrite Hd3. }
  exists (h ++ [df; frame_select df (Series_eq p (Num (Int 1))); d3]), d3, (h ++ t), out, p, s.
  split; [exact Hf |]. split; [apply lookup_last |]. split; [exact Hcols |].
  split.
  { exists (manter df p), (manter df s). rewrite !Hl, Hp, Hs.
    split; [reflexivity |]. split; [reflexivity |].
    split; [now apply manter_presentes | now apply manter_com_nota]. }
  split; [exact Hrun |]. split; [exact Hlook |].
  split; [exact Hp |]. split; [exact Hs |].
  split.
  { rewrite (derivado_lookup py df out _ Hout') by compute_done.
    rewrite decide_False by compute_done. now rewrite Hp. }
  split; [now apply manter_presentes |].
  split.
  { rewrite (derivado_lookup py df out _ Hout') by compute_done.
    rewrite decide_True by compute_done. now rewrite Hs. }
  split; [now apply manter_com_nota |].
  eapply Forall_impl; [apply (manter_com_nota df s Hs) |].
  intros c Hc. cbv beta in Hc. destruct c as [| n | x]; cbn [to_numeric_coerce notna] in *.
  - discriminate.
  - split; [discriminate | intros (x & [=] & _)].
  - destruct (str_to_number py x) as [n |] eqn:Hx; cbn [notna].
    + split; [discriminate |]. intros (x' & [= <-] & Hx'). congruence.
    + split; [eauto | reflexivity].
Qed.

(** The hypotheses of [presentes_com_nota_ate_a_coercao] at the table of
    five candidates: lines 88-94 leave only rows present with a score. *)
Lemma presentes_com_nota_witness :
  [Exemplos.cinco] !! 0%nat = Some Exemplos.cinco /\
  (forall c, c ∈ colunas_obrigatorias -> c ∈ columns Exemplos.cinco) /\
  exists h1 d3,
    filtrar_presentes 0%nat [Exemplos.cinco] = (Ok 3%nat, h1) /\
    h1 !! 3%nat = Some d3 /\ so_presentes_com_nota d3.
Proof.
  assert (Hreq : forall c, c ∈ colunas_obrigatorias -> c ∈ columns Exemplos.cinco).
  { apply Forall_forall. vm_compute. repeat constructor. }
  split; [reflexivity |]. split; [exact Hreq |].
  destruct (presentes_com_nota_ate_a_coercao decimal [Exemplos.cinco] 0%nat Exemplos.cinco
              eq_refl Hreq)
    as (h1 & d3 & h' & out & p & s & Hf & Hl & _ & Hinv & _).
  exists h1, d3. split; [exact Hf |]. split; [exact Hl | exact Hinv].
Defined.

Lemma bem_formado_lookup d c s :
  bem_formado d -> col_lookup c (cols d) = Some s -> length s = nrows d.
Proof.
  unfold bem_formado. generalize (nrows d) as n. intros n Hwf.
  induction Hwf as [| [k v] l Hkv _ IH]; cbn [col_lookup]; [discriminate |].
  destruct (String.eqb k c); [now intros [= <-] | exact IH].
Qed.

Lemma bem_formado_select d mask : bem_formado d -> bem_formado (frame_select d mask).
Proof.
  unfold bem_formado, nrows, frame_select. cbn [rows cols]. intros Hwf.
  apply Forall_map. eapply Forall_impl; [exact Hwf |].
  intros [k v] Hv. cbn [snd] in *. now apply select_length_eq.
Qed.

Lemma bem_formado_setitem d c s :
  bem_formado d -> length s = nrows d -> bem_formado (frame_setitem d c s).
Proof.
  unfold bem_formado, nrows, frame_setitem. cbn [rows cols].
  generalize (length (rows d)) as n. intros n Hwf Hs.
  induction Hwf as [| [k v] l Hkv Hl IH]; cbn [col_assign].
  - now repeat constructor.
  - destruct (String.eqb k c); constructor; auto.
Qed.

Lemma select_sublist {A} (mask : list bool) (l : list A) : select mask l `sublist_of` l.
Proof.
  revert l. induction mask as [| b mask IH]; intros [| x l]; cbn [select];
    try apply sublist_nil_l.
  destruct b; [apply sublist_skip | apply sublist_cons]; apply IH.
Qed.

Lemma presentes_form d p :
  col_lookup "TP_PRESENCA_CH" (cols d) = Some p -> "NU_NOTA_CH" ∈ columns d ->
  presentes d =
    Ok (frame_select (frame_select d (Series_eq p (Num (Int 1))))
          (complete_rows (frame_select d (Series_eq p (Num (Int 1)))) ["NU_NOTA_CH"])).
Proof.
  intros Hp Hn. unfold presentes, frame_getitem. rewrite Hp. cbn [mbind result_bind].
  now rewrite frame_dropna_one, columns_select, decide_True.
Qed.

(** In a table with one cell per row in every column, lines 88-94 keep
    exactly the rows whose presence code equals 1 and whose Humanities score
    is not missing, in their order, and every column of the table they
    leave holds the cells of those rows. *)
Theorem linhas_mantidas (h : heap) r df p s :
  h !! r = Some df -> bem_formado df ->
  col_lookup "TP_PRESENCA_CH" (cols df) = Some p ->
  col_lookup "NU_NOTA_CH" (cols df) = Some s ->
  exists h' d3,
    filtrar_presentes r h = (Ok (length h + 2)%nat, h') /\
    h' !! (length h + 2)%nat = Some d3 /\
    rows d3 = select (zip_with andb (Series_eq p (Num (Int 1))) (map notna s)) (rows df) /\
    rows d3 `sublist_of` rows df /\
    columns d3 = columns df /\
    bem_formado d3 /\
    forall c col, col_lookup c (cols df) = Some col ->
      col_lookup c (cols d3)
      = Some (select (zip_with andb (Series_eq p (Num (Int 1))) (map notna s)) col).
Proof.
  intros Hr Hwf Hp Hs.
  assert (Hn : "NU_NOTA_CH" ∈ columns df) by (apply elem_of_columns; rewrite Hs; eauto).
  pose proof (presentes_form df p Hp Hn) as Hd3.
  pose proof (filtrar_presentes_run h r df Hr) as Hf.
  unfold presentes, frame_getitem in Hd3. unfold frame_getitem in Hf.
  rewrite Hp in Hd3, Hf. cbn [mbind result_bind] in Hd3. cbv zeta in Hf. rewrite Hd3 in Hf.
  pose proof (presentes_form df p Hp Hn) as Hpres.
  apply presentes_inv in Hpres as (_ & _ & Hrows & Hcols & Hl).
  pose proof (bem_formado_lookup df _ _ Hwf Hs) as Hlen.
  eexists _, _. split; [exact Hf |]. split; [apply lookup_last |].
  split; [rewrite Hrows; now apply (manter_spec df p s) |].
  split; [rewrite Hrows; unfold manter; etransitivity; apply select_sublist |].
  split; [exact Hcols |].
  split; [now do 2 apply bem_formado_select |].
  intros c col Hcol. rewrite Hl, Hcol. cbn [fmap option_fmap option_map].
  f_equal. apply (manter_spec df p s); try assumption.
  now apply (bem_formado_lookup df c).
Qed.

(** The hypotheses of [linhas_mantidas] at the table of five candidates:
    the second is dropped. *)
Lemma linhas_mantidas_witness :
  [Exemplos.cinco] !! 0%nat = Some Exemplos.cinco /\
  bem_formado Exemplos.cinco /\
  exists h' d3,
    filtrar_presentes 0%nat [Exemplos.cinco] = (Ok 3%nat, h') /\
    h' !! 3%nat = Some d3 /\ rows d3 = [0; 2; 3; 4]%nat.
Proof.
  assert (Hwf : bem_formado Exemplos.cinco) by (vm_compute; repeat constructor).
  split; [reflexivity |]. split; [exact Hwf |].
  destruct (linhas_mantidas [Exemplos.cinco] 0%nat Exemplos.cinco _ _ eq_refl Hwf
              eq_refl eq_refl) as (h' & d3 & Hf & Hl & Hrows & _).
  exists h', d3. split; [exact Hf |]. split; [exact Hl | exact Hrows].
Defined.

(** ** The label columns *)

(** For a table with the columns the call reads, lines 87-189 raise
    nothing, whatever the codes are, and each of the seven label columns is
    [Series.map] of its table over the cells its source column has in the
    rows kept; so the income label is that of the income letter, and is
    missing where the cell is not one of the seventeen letters. *)
Theorem rotulos_derivados py (h : heap) r df :
  h !! r = Some df ->
  (forall c, c ∈ colunas_obrigatorias -> c ∈ columns df) ->
  exists h' out,
    limpar_e_derivar py r h = (Ok (length h + 2)%nat, h') /\
    h' !! (length h + 2)%nat = Some out /\
    (forall sp, sp ∈ derivacoes ->
       exists s, col_lookup (origem sp) (cols df) = Some s /\
                 col_lookup (destino sp) (cols out) = Some (sp.2 (manter df s))) /\
    (exists q, col_lookup "Q006" (cols df) = Some q /\
       col_lookup "RENDA_FAMILIAR" (cols out)
       = Some (map (fun c => match str_key c ≫= (mapa_renda !!.) with
                             | Some l => Str l
                             | None => NaN
                             end) (manter df q))).
Proof.
  intros Hr Hreq.
  destruct (derivado_Ok py df Hreq) as [out Hout].
  destruct (limpar_e_derivar_run py h r df Hr) as (t & Hrun & Hlook).
  rewrite Hout in Hrun. exists (h ++ t), out.
  split; [exact Hrun |]. split; [now apply Hlook |].
  split; [intros sp Hsp; now apply (derivado_destino py) |].
  destruct (derivado_destino py df out
              ("Q006", "RENDA_FAMILIAR", Series_map_dict str_key mapa_renda) Hout)
    as (q & Hq & Hrenda).
  { unfold derivacoes. do 5 apply list_elem_of_further. apply list_elem_of_here. }
  exists q. split; [exact Hq | exact Hrenda].
Qed.

(** The hypotheses of [rotulos_derivados] at the table with codes outside
    the tables: both rows are kept and the second gets no income label. *)
Lemma rotulos_derivados_witness :
  [Exemplos.anomalias] !! 0%nat = Some Exemplos.anomalias /\
  (forall c, c ∈ colunas_obrigatorias -> c ∈ columns Exemplos.anomalias) /\
  exists h' out,
    limpar_e_derivar decimal 0%nat [Exemplos.anomalias] = (Ok 3%nat, h') /\
    h' !! 3%nat = Some out /\
    col_lookup "RENDA_FAMILIAR" (cols out) = Some [Str "R$ 5.648,01 a R$ 7.060,00"; NaN].
Proof.
  assert (Hreq : forall c, c ∈ colunas_obrigatorias -> c ∈ columns Exemplos.anomalias).
  { apply Forall_forall. vm_compute. repeat constructor. }
  split; [reflexivity |]. split; [exact Hreq |].
  destruct (rotulos_derivados decimal [Exemplos.anomalias] 0%nat Exemplos.anomalias
              eq_refl Hreq) as (h' & out & Hrun & Hl & _ & q & Hq & Hrenda).
  exists h', out. split; [exact Hrun |]. split; [exact Hl |].
  rewrite Hrenda. injection Hq as <-. reflexivity.
Defined.

(** ** Running lines 87-189 again *)

Lemma select_all {A} (mask : list bool) (l : list A) :
  Forall (fun b => b = true) mask -> (length l <= length mask)%nat -> select mask l = l.
Proof.
  intros Hall. revert l. induction Hall as [| b mask -> _ IH]; intros [| x l];
    cbn [select length]; try reflexivity; try lia.
  intros Hlen. rewrite IH by lia. reflexivity.
Qed.

Lemma frame_select_all d mask :
  bem_formado d -> Forall (fun b => b = true) mask -> (nrows d <= length mask)%nat ->
  frame_select d mask = d.
Proof.
  intros Hwf Hall Hlen. destruct d as [rs cs]. unfold frame_select, bem_formado, nrows in *.
  cbn [rows cols] in *. f_equal; [now apply select_all |].
  induction Hwf as [| [k v] l Hv _ IH]; [reflexivity |]. cbn [map fst snd] in *.
  rewrite IH, select_all; [reflexivity | exact Hall | lia].
Qed.

Lemma col_assign_same c s l : col_lookup c l = Some s -> col_assign c s l = l.
Proof.
  induction l as [| [k v] l IH]; cbn [col_lookup col_assign]; [discriminate |].
  destruct (String.eqb k c); [now intros [= ->] | intros Hs; now rewrite IH].
Qed.

Lemma frame_setitem_same d c s : col_lookup c (cols d) = Some s -> frame_setitem d c s = d.
Proof.
  intros Hs. destruct d as [rs cs]. unfold frame_setitem. cbn [rows cols] in *.
  now rewrite col_assign_same.
Qed.

Lemma to_numeric_coerce_again py c :
  to_numeric_coerce py (to_numeric_coerce py c) = to_numeric_coerce py c.
Proof.
  destruct c as [| n | x]; cbn [to_numeric_coerce]; try reflexivity.
  now destruct (str_to_number py x).
Qed.

Lemma foldl_fixed {A B} (f : A -> B -> A) (a : A) (l : list B) :
  (forall x, x ∈ l -> f a x = a) -> foldl f a l = a.
Proof.
  induction l as [| x l IH]; intros Hfix; cbn [foldl]; [reflexivity |].
  rewrite Hfix by apply list_elem_of_here. apply IH.
  intros y Hy. apply Hfix. now apply list_elem_of_further.
Qed.

Lemma aplicar_fixed specs d :
  (forall sp, sp ∈ specs -> derivar_coluna (origem sp) (destino sp) sp.2 d = Ok d) ->
  aplicar specs d = Ok d.
Proof.
  induction specs as [| sp specs IH]; intros Hfix; cbn [aplicar]; [reflexivity |].
  rewrite Hfix by apply list_elem_of_here. cbn [mbind result_bind]. apply IH.
  intros sp' Hsp'. apply Hfix. now apply list_elem_of_further.
Qed.

Lemma bem_formado_ajustar py d col :
  bem_formado d -> bem_formado (ajustar_coluna py d col).
Proof.
  intros Hwf. unfold ajustar_coluna. case_bool_decide as Hin; [| exact Hwf].
  destruct (col_lookup_columns _ _ Hin) as [s Hs]. rewrite Hs.
  apply bem_formado_setitem; [exact Hwf |].
  change (default [] (Some s)) with s. rewrite length_map.
  now apply (bem_formado_lookup d col).
Qed.

Lemma bem_formado_tipos py d : bem_formado d -> bem_formado (tipos_ajustados py d).
Proof.
  unfold tipos_ajustados. generalize colunas_numericas as l. intros l. revert d.
  induction l as [| col l IH]; intros d Hwf; cbn [foldl]; [exact Hwf |].
  now apply IH, bem_formado_ajustar.
Qed.

Lemma bem_formado_aplicar specs :
  Forall (fun sp => forall s : Series, length (sp.2 s) = length s) specs ->
  forall d out, bem_formado d -> aplicar specs d = Ok out -> bem_formado out.
Proof.
  induction 1 as [| sp specs Hsp _ IH]; intros d out Hwf; cbn [aplicar].
  - now intros [= <-].
  - destruct (derivar_coluna (origem sp) (destino sp) sp.2 d) as [d' |] eqn:Hd;
      [| discriminate].
    cbn [mbind result_bind]. apply IH.
    apply derivar_coluna_Ok in Hd as (s & Hs & ->).
    apply bem_formado_setitem; [exact Hwf |].
    rewrite Hsp. now apply (bem_formado_lookup d (origem sp)).
Qed.

Lemma derivacoes_length :
  Forall (fun sp => forall s : Series, length (sp.2 s) = length s) derivacoes.
Proof.
  unfold derivacoes. repeat constructor; intros s; cbn [snd]; apply length_map.
Qed.

Lemma bem_formado_derivado py d out :
  bem_formado d -> derivado py d = Ok out -> bem_formado out.
Proof.
  intros Hwf. unfold derivado.
  destruct (presentes d) as [d3 |] eqn:Hd3; [| discriminate]. cbn [mbind result_bind].
  rewrite variaveis_criadas_aplicar. apply (bem_formado_aplicar _ derivacoes_length).
  apply bem_formado_tipos.
  pose proof Hd3 as Hinv. apply presentes_inv in Hinv as (Hp & Hn & _).
  destruct (col_lookup_columns _ _ Hp) as [p Hp'].
  rewrite (presentes_form d p Hp' Hn) in Hd3. injection Hd3 as <-.
  now do 2 apply bem_formado_select.
Qed.

Lemma derivado_de_novo py df out :
  bem_formado df -> derivado py df = Ok out -> so_presentes_com_nota out ->
  derivado py out = Ok out.
Proof.
  intros Hwf Hout (p & s & Hp & Hs & Hp1 & Hs1).
  pose proof (bem_formado_derivado py df out Hwf Hout) as Hwf'.
  pose proof (bem_formado_lookup out _ _ Hwf' Hp) as Hlp.
  pose proof (bem_formado_lookup out _ _ Hwf' Hs) as Hls.
  assert (Hpres : presentes out = Ok out).
  { rewrite (presentes_form out p Hp) by (apply elem_of_columns; rewrite Hs; eauto).
    assert (H1 : frame_select out (Series_eq p (Num (Int 1))) = out).
    { apply frame_select_all; [exact Hwf' | | unfold Series_eq; rewrite length_map; lia].
      unfold Series_eq. apply Forall_map. exact Hp1. }
    rewrite H1, complete_rows_one, Hs. change (default [] (Some s)) with s.
    f_equal. apply frame_select_all; [exact Hwf' | |].
    - apply Forall_take, Forall_map. exact Hs1.
    - rewrite length_take, length_map. lia. }
  unfold derivado. rewrite Hpres. cbn [mbind result_bind].
  assert (Htipos : tipos_ajustados py out = out).
  { unfold tipos_ajustados. apply foldl_fixed. intros col Hcol.
    unfold ajustar_coluna. case_bool_decide as Hin; [| reflexivity].
    apply frame_setitem_same.
    rewrite (derivado_lookup py df out col Hout).
    - rewrite decide_True by exact Hcol.
      destruct (col_lookup col (cols df)) as [y |] eqn:Hy.
      + cbn [fmap option_fmap option_map default]. unfold id. f_equal.
        rewrite map_map. apply map_ext. intros c. symmetry. apply to_numeric_coerce_again.
      + exfalso. apply elem_of_columns in Hin as [x Hx].
        rewrite (derivado_lookup py df out col Hout) in Hx.
        * rewrite decide_True, Hy in Hx by exact Hcol. discriminate.
        * clear Hy Hx. revert col Hcol. apply Forall_forall. compute_done.
    - clear Hin. revert col Hcol. apply Forall_forall. compute_done. }
  rewrite Htipos, variaveis_criadas_aplicar. apply aplicar_fixed.
  intros sp Hsp.
  destruct (derivado_destino py df out sp Hout Hsp) as (y & Hy & Hdst).
  unfold derivar_coluna, frame_getitem.
  rewrite (derivado_lookup py df out (origem sp) Hout).
  - rewrite decide_False, Hy.
    + cbn [fmap option_fmap option_map mbind result_bind mret result_ret].
      now rewrite frame_setitem_same.
    + clear y Hy Hdst. revert sp Hsp. apply Forall_forall. compute_done.
  - clear y Hy Hdst. revert sp Hsp. apply Forall_forall. compute_done.
Qed.

(** Lines 87-189 run on the table they made of a table with one cell per
    row give that same table again, provided none of its Humanities scores
    is missing (one is, after the coercion of a score that was text and not
    a number, and that row is dropped the second time). *)
Theorem limpar_e_derivar_de_novo py (h : heap) r df r1 (h1 : heap) out :
  h !! r = Some df -> bem_formado df ->
  limpar_e_derivar py r h = (Ok r1, h1) ->
  h1 !! r1 = Some out ->
  so_presentes_com_nota out ->
  exists t,
    limpar_e_derivar py r1 h1 = (Ok (length h1 + 2)%nat, h1 ++ t) /\
    (h1 ++ t) !! (length h1 + 2)%nat = Some out.
Proof.
  intros Hr Hwf Hrun Hl Hinv.
  destruct (limpar_e_derivar_run py h r df Hr) as (t0 & Hrun0 & Hlook0).
  rewrite Hrun in Hrun0.
  destruct (derivado py df) as [out0 | e] eqn:Hout0; [| discriminate].
  injection Hrun0 as -> ->. specialize (Hlook0 out0 eq_refl).
  rewrite Hl in Hlook0. injection Hlook0 as <-.
  pose proof (derivado_de_novo py df out Hwf Hout0 Hinv) as Hagain.
  destruct (limpar_e_derivar_run py (h ++ t0) _ out Hl) as (t & Hrun1 & Hlook1).
  rewrite Hagain in Hrun1. exists t. split; [exact Hrun1 | now apply Hlook1].
Qed.

(** The hypotheses of [limpar_e_derivar_de_novo] at the table of five
    candidates. *)
Lemma limpar_e_derivar_de_novo_witness :
  [Exemplos.cinco] !! 0%nat = Some Exemplos.cinco /\
  bem_formado Exemplos.cinco /\
  limpar_e_derivar decimal 0%nat [Exemplos.cinco]
    = (Ok 3%nat, (limpar_e_derivar decimal 0%nat [Exemplos.cinco]).2) /\
  (limpar_e_derivar decimal 0%nat [Exemplos.cinco]).2 !! 3%nat = Some Exemplos.cinco_preparado /\
  so_presentes_com_nota Exemplos.cinco_preparado /\
  exists t,
    (limpar_e_derivar decimal 3%nat (limpar_e_derivar decimal 0%nat [Exemplos.cinco]).2).1
      = Ok 6%nat /\
    ((limpar_e_derivar decimal 0%nat [Exemplos.cinco]).2 ++ t) !! 6%nat
      = Some Exemplos.cinco_preparado.
Proof.
  assert (Hwf : bem_formado Exemplos.cinco) by (vm_compute; repeat constructor).
  assert (Hrun : limpar_e_derivar decimal 0%nat [Exemplos.cinco]
                 = (Ok 3%nat, (limpar_e_derivar decimal 0%nat [Exemplos.cinco]).2))
    by (vm_compute; reflexivity).
  assert (Hl : (limpar_e_derivar decimal 0%nat [Exemplos.cinco]).2 !! 3%nat
               = Some Exemplos.cinco_preparado) by (vm_compute; reflexivity).
  assert (Hinv : so_presentes_com_nota Exemplos.cinco_preparado).
  { eexists _, _. split; [vm_compute; reflexivity |]. split; [vm_compute; reflexivity |].
    split; repeat constructor. }
  split; [reflexivity |]. split; [exact Hwf |]. split; [exact Hrun |].
  split; [exact Hl |]. split; [exact Hinv |].
  destruct (limpar_e_derivar_de_novo decimal [Exemplos.cinco] 0%nat Exemplos.cinco 3%nat _
              Exemplos.cinco_preparado eq_refl Hwf Hrun Hl Hinv) as (t & Hagain & Hsame).
  exists t. rewrite Hagain. split; [reflexivity | exact Hsame].
Defined.

(** ** The groups of the t-test *)

Lemma mapa_internet_sim (c : cell) :
  py_eq (match str_key c ≫= (mapa_internet !!.) with
         | Some l => Str l
         | None => NaN
         end) (Str "Sim") = py_eq c (Str "A").
Proof.
  destruct c as [| n | x]; try reflexivity. cbn [str_key mbind option_bind].
  unfold mapa_internet. cbn [list_to_map foldr uncurry fst snd].
  rewrite !lookup_insert, lookup_empty.
  destruct (decide ("A" = x)) as [<- | Ha]; [reflexivity |].
  destruct (decide ("B" = x)) as [<- | Hb]; [reflexivity |].
  cbn [py_eq]. symmetry. apply String.eqb_neq. congruence.
Qed.

Lemma mapa_internet_nao (c : cell) :
  py_eq (match str_key c ≫= (mapa_internet !!.) with
         | Some l => Str l
         | None => NaN
         end) (Str "Não") = py_eq c (Str "B").
Proof.
  destruct c as [| n | x]; try reflexivity. cbn [str_key mbind option_bind].
  unfold mapa_internet. cbn [list_to_map foldr uncurry fst snd].
  rewrite !lookup_insert, lookup_empty.
  destruct (decide ("A" = x)) as [<- | Ha]; [reflexivity |].
  destruct (decide ("B" = x)) as [<- | Hb]; [reflexivity |].
  cbn [py_eq]. symmetry. apply String.eqb_neq. congruence.
Qed.

Lemma grupo_internet_run (h : heap) r d resposta a s :
  h !! r = Some d ->
  col_lookup "ACESSO_INTERNET" (cols d) = Some a ->
  col_lookup "NU_NOTA_CH" (cols d) = Some s ->
  grupo_internet r resposta h
  = (Ok (select (Series_eq a (Str resposta)) s),
     h ++ [frame_select d (Series_eq a (Str resposta))]).
Proof.
  intros Hr Ha Hs. unfold grupo_internet.
  rewrite bind_run, (getitem_run _ _ _ _ Hr). unfold frame_getitem at 1. rewrite Ha.
  rewrite bind_run, (getitem_mask_run _ _ _ _ Hr).
  erewrite getitem_run by now apply list_lookup_middle.
  unfold frame_getitem. now rewrite col_lookup_frame_select, Hs.
Qed.

(** On the table lines 87-189 make, the two groups of the t-test of
    [analisar_internet_notas] are the Humanities scores of the rows kept
    whose answer to Q025 is A (group ['Sim']) and B (group ['Não']); a row
    with any other answer is in neither group. *)
Theorem grupos_do_teste_t py (h : heap) r df :
  h !! r = Some df ->
  (forall c, c ∈ colunas_obrigatorias -> c ∈ columns df) ->
  exists h1 q s,
    limpar_e_derivar py r h = (Ok (length h + 2)%nat, h1) /\
    col_lookup "Q025" (cols df) = Some q /\
    col_lookup "NU_NOTA_CH" (cols df) = Some s /\
    (exists t, grupo_internet (length h + 2)%nat "Sim" h1
               = (Ok (select (Series_eq (manter df q) (Str "A"))
                        (map (to_numeric_coerce py) (manter df s))), h1 ++ t)) /\
    (exists t, grupo_internet (length h + 2)%nat "Não" h1
               = (Ok (select (Series_eq (manter df q) (Str "B"))
                        (map (to_numeric_coerce py) (manter df s))), h1 ++ t)).
Proof.
  intros Hr Hreq.
  destruct (derivado_Ok py df Hreq) as [out Hout].
  destruct (limpar_e_derivar_run py h r df Hr) as (t & Hrun & Hlook).
  rewrite Hout in Hrun. specialize (Hlook out Hout).
  destruct (derivado_destino py df out
              ("Q025", "ACESSO_INTERNET", Series_map_dict str_key mapa_internet) Hout)
    as (q & Hq & Hacesso).
  { unfold derivacoes. do 6 apply list_elem_of_further. apply list_elem_of_here. }
  destruct (col_lookup_columns "NU_NOTA_CH" (cols df)) as [s Hs]; [apply Hreq; compute_done |].
  assert (Hnota : col_lookup "NU_NOTA_CH" (cols out)
                  = Some (map (to_numeric_coerce py) (manter df s))).
  { rewrite (derivado_lookup py df out _ Hout) by compute_done.
    rewrite decide_True by compute_done. now rewrite Hs. }
  cbn [origem destino fst snd] in Hq, Hacesso.
  exists (h ++ t), q, s. split; [exact Hrun |]. split; [exact Hq |]. split; [exact Hs |].
  assert (Hsim : Series_eq (Series_map_dict str_key mapa_internet (manter df q)) (Str "Sim")
                 = Series_eq (manter df q) (Str "A")).
  { unfold Series_eq, Series_map_dict. rewrite map_map. apply map_ext, mapa_internet_sim. }
  assert (Hnao : Series_eq (Series_map_dict str_key mapa_internet (manter df q)) (Str "Não")
                 = Series_eq (manter df q) (Str "B")).
  { unfold Series_eq, Series_map_dict. rewrite map_map. apply map_ext, mapa_internet_nao. }
  split; eexists; rewrite (grupo_internet_run _ _ _ _ _ _ Hlook Hacesso Hnota).
  - rewrite Hsim. reflexivity.
  - rewrite Hnao. reflexivity.
Qed.

(** The hypotheses of [grupos_do_teste_t] at the table of five candidates:
    three of the rows kept answered A and one answered B. *)
Lemma grupos_do_teste_t_witness :
  [Exemplos.cinco] !! 0%nat = Some Exemplos.cinco /\
  (forall c, c ∈ colunas_obrigatorias -> c ∈ columns Exemplos.cinco) /\
  exists t,
    grupo_internet 3%nat "Sim" (limpar_e_derivar decimal 0%nat [Exemplos.cinco]).2
    = (Ok [Num (Float 550); Num (Float 512.3); Num (Float 701.9)],
       (limpar_e_derivar decimal 0%nat [Exemplos.cinco]).2 ++ t).
Proof.
  assert (Hreq : forall c, c ∈ colunas_obrigatorias -> c ∈ columns Exemplos.cinco).
  { apply Forall_forall. vm_compute. repeat constructor. }
  split; [reflexivity |]. split; [exact Hreq |].
  destruct (grupos_do_teste_t decimal [Exemplos.cinco] 0%nat Exemplos.cinco eq_refl Hreq)
    as (h1 & q & s & Hrun & Hq & Hs & [t Hsim] & _).
  rewrite Hrun. cbn [snd]. exists t.
  change (length [Exemplos.cinco] + 2)%nat with 3%nat in Hsim. rewrite Hsim.
  injection Hq as <-. injection Hs as <-. reflexivity.
Defined.

(** ** main *)

Lemma IO_bind_run {A B} (m : IO A) (k : A -> IO B) (w : heap * list saida) :
  (m ≫= k) w = match m w with
               | (Ok a, w') => k a w'
               | (Raise e, w') => (Raise e, w')
               end.
Proof. reflexivity. Qed.

(** With the data loaded, [main] runs none of the nine report functions,
    whatever they are, and lets no exception out: it writes its two opening
    lines, then the exception [preparar_dados] raised and the traceback, and
    leaves the tables of the heap as they were.  Without the data it writes
    one line and touches nothing. *)
Theorem main_nunca_analisa py an (h : heap) (escrito : list saida) r df :
  h !! r = Some df ->
  (exists e t,
     preparar_dados py r h = (Raise e, h ++ t) /\
     main py an (Some r) (h, escrito)
     = (Ok tt,
        (h ++ t,
         escrito ++ [Print "Utilizando dados já carregados";
                     Print (nova_linha "Preparando os dados para análise...");
                     PrintErro e;
                     PrintTraceback]))) /\
  main py an None (h, escrito)
  = (Ok tt,
     (h, escrito ++ [Print "Dados não encontrados. Por favor, carregue os dados primeiro."])).
Proof.
  intros Hr. split; [| reflexivity].
  destruct (preparar_dados_run py h r df Hr) as (e & t & Hrun & _).
  exists e, t. split; [exact Hrun |].
  unfold main, try_except.
  rewrite IO_bind_run. unfold escrever at 1. cbn [fst snd].
  rewrite IO_bind_run. unfold escrever at 1. cbn [fst snd].
  rewrite IO_bind_run. unfold run_M at 1. cbn [fst snd]. rewrite Hrun.
  rewrite IO_bind_run. unfold escrever. cbn [fst snd].
  now rewrite <- !app_assoc.
Qed.

(** The hypothesis of [main_nunca_analisa] at the table of five candidates:
    what [main] writes ends with the [ValueError] of [pd.cut]. *)
Lemma main_nunca_analisa_witness :
  [Exemplos.cinco] !! 0%nat = Some Exemplos.cinco /\
  (main decimal sem_analises (Some 0%nat) ([Exemplos.cinco], [])).1 = Ok tt /\
  (main decimal sem_analises (Some 0%nat) ([Exemplos.cinco], [])).2.2
  = [Print "Utilizando dados já carregados";
     Print (nova_linha "Preparando os dados para análise...");
     PrintErro (ValueError "Bin labels must be one fewer than the number of bin edges");
     PrintTraceback].
Proof.
  split; [reflexivity |].
  destruct (main_nunca_analisa decimal sem_analises [Exemplos.cinco] [] 0%nat
              Exemplos.cinco eq_refl) as [(e & t & Hprep & Hmain) _].
  rewrite Hmain. cbn [fst snd app]. split; [reflexivity |].
  assert (He : e = ValueError "Bin labels must be one fewer than the number of bin edges").
  { assert (H1 : (preparar_dados decimal 0%nat [Exemplos.cinco]).1 = Raise e)
      by now rewrite Hprep.
    vm_compute in H1. now injection H1 as <-. }
  now rewrite He.
Defined.

(** ** The order of the income labels *)

Lemma mapa_renda_longo (a b : ascii) (x : string) :
  mapa_renda !! String a (String b x) = None.
Proof.
  unfold mapa_renda. cbn [list_to_map foldr uncurry fst snd].
  repeat (rewrite lookup_insert; rewrite decide_False by discriminate).
  apply lookup_empty.
Qed.

Lemma Series_map_dict_renda (s : Series) :
  Series_map_dict str_key mapa_renda s = map rotulo_renda s.
Proof. reflexivity. Qed.

(** The position line 360 gives to the income label line 182 wrote for a
    cell is the rank of the income letter, 0 for A to 16 for Q, and is
    missing exactly when the label is: the order of the chart is the order
    of the letters. *)
Theorem ordem_do_rotulo_da_renda (c : cell) :
  ordem_do_rotulo (rotulo_renda c) =
    match c with
    | Str (String a EmptyString) =>
        let n := Z.of_nat (nat_of_ascii a) in
        if (65 <=? n) && (n <=? 81) then Num (Int (n - 65)) else NaN
    | _ => NaN
    end.
Proof.
  destruct c as [| n | [| a [| b x]]]; try reflexivity.
  - destruct a as [[] [] [] [] [] [] [] []]; vm_compute; reflexivity.
  - unfold rotulo_renda. cbn [str_key mbind option_bind].
    now rewrite mapa_renda_longo.
Qed.
